(** * Personal expense tracker: the storage, aggregation and form logic of
      [expense_tracker.py], embedded as pure functions over an explicit table.

    The program keeps one SQLite table [expenses] and talks to it through five
    parameterised statements; pandas derives three summaries from the listing.
    The table is modelled as the list of its rows together with the
    AUTOINCREMENT counter SQLite keeps in [sqlite_sequence]; a DataFrame is the
    list of its rows.

    Three things the program gets from its libraries are parameters of the
    development, so nothing below depends on how they are implemented:
    - the arithmetic of the REAL column [amount] ([zero], [add], [amount_leb]).
      The column holds binary64 numbers, whose addition rounds and is not
      associative: no theorem assumes a law of [add], and the statements about
      totals are checked at binary64 itself ([PrimFloat]);
    - SQLite's [date(X)], a text ['YYYY-MM-DD'] or NULL ([sqlite_date]);
    - pandas' [to_datetime] and Python's [str.strip]. *)

From Stdlib Require Import PrimFloat SpecFloat FloatOps.
From Stdlib Require Import ZArith Ascii String.
From stdpp Require Import base list sorting strings.

Set Default Proof Using "Type".
Set Warnings "-inexact-float".
Local Open Scope Z_scope.

(** ** Outcomes of a statement *)

(** The only failure of a statement that the model represents is SQLite's
    SQLITE_FULL, which Python raises as [sqlite3.OperationalError]. *)
Inductive exn : Type :=
  | OperationalError.

Inductive result (A : Type) : Type :=
  | Ok (a : A)
  | Raise (e : exn).
Arguments Ok {A} a.
Arguments Raise {A} e.

Definition bind {A B : Type} (m : result A) (k : A -> result B) : result B :=
  match m with
  | Ok a => k a
  | Raise e => Raise e
  end.

(** ** SQL values: NULL, three-valued logic, text comparison *)

(** SQLite compares TEXT byte by byte (collation BINARY). *)
Definition text_leb (a b : string) : bool := String.leb a b.

(** [x >= y] and [x <= y] on nullable text: NULL if either side is NULL. *)
Definition sql_ge (x y : option string) : option bool :=
  match x, y with
  | Some a, Some b => Some (text_leb b a)
  | _, _ => None
  end.

Definition sql_le (x y : option string) : option bool :=
  match x, y with
  | Some a, Some b => Some (text_leb a b)
  | _, _ => None
  end.

(** Kleene conjunction of SQL. *)
Definition sql_and (x y : option bool) : option bool :=
  match x, y with
  | Some false, _ | _, Some false => Some false
  | Some true, Some true => Some true
  | _, _ => None
  end.

(** ORDER BY puts NULL below every text. *)
Definition sql_compare (x y : option string) : comparison :=
  match x, y with
  | None, None => Eq
  | None, Some _ => Lt
  | Some _, None => Gt
  | Some a, Some b => String.compare a b
  end.

(** The order ORDER BY sorts by, as a relation: NULL first, then text. *)
Definition sql_order_le (x y : option string) : Prop :=
  match x, y with
  | None, _ => True
  | Some _, None => False
  | Some a, Some b => String.le a b
  end.

(** The largest rowid of SQLite, 2^63 - 1. *)
Definition MAX_ROWID : Z := 9223372036854775807.

(** ** pandas timestamps and month bins *)

(** The calendar part of a [pd.Timestamp]; month-start bins ignore the rest. *)
Record Timestamp : Type := mkTimestamp { year : Z; month : Z; day : Z }.

Global Instance Timestamp_eq_dec : EqDecision Timestamp.
Proof. solve_decision. Defined.

(** Months counted from year 0: the bin a timestamp falls into. *)
Definition month_ordinal (ts : Timestamp) : Z := year ts * 12 + (month ts - 1).

(** The label of a bin: the first day of its month. *)
Definition month_start (n : Z) : Timestamp :=
  {| year := n `div` 12; month := n `mod` 12 + 1; day := 1 |}.

(** ** Python dates of the form widgets *)

Record pydate : Type := mkDate { py_year : Z; py_month : Z; py_day : Z }.

Definition digit (n : Z) : ascii := ascii_of_nat (48 + Z.to_nat (n `mod` 10)).

Definition pad2 (n : Z) : string :=
  String (digit (n `div` 10)) (String (digit n) EmptyString).

Definition pad4 (n : Z) : string :=
  String (digit (n `div` 1000)) (String (digit (n `div` 100)) (pad2 n)).

(** [date.isoformat()]: ['YYYY-MM-DD']. *)
Definition isoformat (d : pydate) : string :=
  pad4 (py_year d) +:+ "-" +:+ pad2 (py_month d) +:+ "-" +:+ pad2 (py_day d).

(** ** A concrete reading of the parameters

    Amounts as binary64 numbers, the arithmetic of the REAL column itself, or
    as integers where a statement does not depend on rounding; and the library
    functions on the texts [date.isoformat()] produces. *)


Definition digit_value (c : ascii) : option Z := Z.of_nat <$> Ascii.is_nat c.

Fixpoint digits_value (acc : Z) (s : string) : option Z :=
  match s with
  | EmptyString => Some acc
  | String c s' => d ← digit_value c; digits_value (acc * 10 + d) s'
  end.

Definition is_leap (y : Z) : bool :=
  ((y `mod` 4 =? 0) && negb (y `mod` 100 =? 0)) || (y `mod` 400 =? 0).

Definition days_in_month (y m : Z) : Z :=
  if m =? 2 then (if is_leap y then 29 else 28)
  else if (m =? 4) || (m =? 6) || (m =? 9) || (m =? 11) then 30 else 31.

(** The fields of a text ['YYYY-MM-DD'] that names a calendar day. *)
Definition iso_fields (s : string) : option Timestamp :=
  match s with
  | String y1 (String y2 (String y3 (String y4 (String "-" (String m1 (String m2
      (String "-" (String d1 (String d2 EmptyString))))))))) =>
      y ← digits_value 0 (String y1 (String y2 (String y3 (String y4 EmptyString))));
      m ← digits_value 0 (String m1 (String m2 EmptyString));
      d ← digits_value 0 (String d1 (String d2 EmptyString));
      if (1 <=? m) && (m <=? 12) && (1 <=? d) && (d <=? days_in_month y m)
      then Some (mkTimestamp y m d) else None
  | _ => None
  end.

(** [date(X)] on such a text is the text itself. *)
Definition iso_sqlite_date (s : string) : option string :=
  match iso_fields s with
  | Some _ => Some s
  | None => None
  end.

Definition iso_to_datetime (s : string) : option Timestamp := iso_fields s.

Fixpoint lstrip (s : string) : string :=
  match s with
  | EmptyString => EmptyString
  | String c s' => if Ascii.is_space c then lstrip s' else s
  end.

(** [str.strip()] on ASCII text. *)
Definition ascii_strip (s : string) : string :=
  String.rev (lstrip (String.rev (lstrip s))).

(** ** The widgets of the page *)

(** The choices of the category and payment-method select boxes. *)
Definition CATEGORIES : list string :=
  ["Food"; "Transport"; "Rent"; "Utilities"; "Shopping"; "Health"; "Education";
   "Entertainment"; "Other"].

Definition PAYMENT_METHODS : list string :=
  ["Cash"; "UPI"; "Card"; "NetBanking"; "Other"].

(** [options.index(v)], the first position of [v]. *)
Fixpoint list_index (v : string) (options : list string) : option nat :=
  match options with
  | [] => None
  | o :: options' =>
      if decide (o = v) then Some 0%nat else S <$> list_index v options'
  end.

(** [options.index(v) if v in options else 0] *)
Definition index_or_0 (options : list string) (v : string) : nat :=
  default 0%nat (list_index v options).

(** What [st.selectbox(label, options, index=i)] holds until the user picks
    something else. *)
Definition selectbox_initial (options : list string) (i : nat) : string :=
  nth i options "".

(** [Timestamp.date()] *)
Definition ts_date (ts : Timestamp) : pydate :=
  mkDate (year ts) (month ts) (day ts).

(** Python's [date] values: years 1 to 9999 and a day that exists. *)
Definition valid_date (d : pydate) : Prop :=
  1 <= py_year d <= 9999 /\ 1 <= py_month d <= 12
  /\ 1 <= py_day d <= days_in_month (py_year d) (py_month d).

(** [d1 <= d2] on dates: year, then month, then day. *)
Definition date_le (d1 d2 : pydate) : Prop :=
  py_year d1 < py_year d2
  \/ (py_year d1 = py_year d2
      /\ (py_month d1 < py_month d2
          \/ (py_month d1 = py_month d2 /\ py_day d1 <= py_day d2))).

Section Tracker.

(** The carrier of the REAL column and what the program does with it. *)
Context {real : Type}.
Variable zero : real.
Variable add : real -> real -> real.
Variable amount_leb : real -> real -> bool.

(** Library functions. [sqlite_date s] is [None] for NULL; [to_datetime s]
    is [None] when pandas yields no timestamp for [s]. *)
Variable sqlite_date : string -> option string.
Variable to_datetime : string -> option Timestamp.
Variable py_strip : string -> string.

(** *** The table [expenses] *)

Record expense : Type := Expense {
  id : Z;
  tx_date : string;
  category : string;
  description : string;
  amount : real;
  payment_method : string
}.

(** [rows] in insertion order; [seq] is the AUTOINCREMENT counter, the
    largest id handed out so far. *)
Record table : Type := Table { rows : list expense; seq : Z }.

Definition empty_table : table := {| rows := []; seq := 0 |}.

(** [CREATE TABLE IF NOT EXISTS]: [None] is a database without the table. *)
Definition init_db (db : option table) : table :=
  match db with
  | Some t => t
  | None => empty_table
  end.

(** The largest of the counter and the ids in the table. *)
Definition top_rowid (t : table) : Z := foldr Z.max (seq t) (id <$> rows t).

(** [INSERT INTO expenses (tx_date, ...) VALUES (?, ...)]: the id is one more
    than [top_rowid]; the counter follows. *)
Definition add_expense (tx_date category description : string) (amount : real)
    (payment_method : string) (t : table) : result table :=
  let top := top_rowid t in
  if decide (MAX_ROWID <= top) then Raise OperationalError
  else Ok {| rows := rows t ++
               [Expense (top + 1) tx_date category description amount payment_method];
             seq := top + 1 |}.

(** *** The listing query *)

(** One conjunct appended to [WHERE 1=1], with its bound parameter. *)
Inductive condition : Type :=
  | DateGe (p : string)     (* AND date(tx_date) >= date(?) *)
  | DateLe (p : string)     (* AND date(tx_date) <= date(?) *)
  | CategoryEq (p : string) (* AND category = ? *).

(** The three [if]s that extend the query; a Python string is true when it
    is not empty. *)
Definition where_clause (start_date end_date category : option string)
    : list condition :=
  match start_date with
  | Some s => if decide (s = "") then [] else [DateGe s]
  | None => []
  end ++
  match end_date with
  | Some s => if decide (s = "") then [] else [DateLe s]
  | None => []
  end ++
  match category with
  | Some c => if decide (c = "") then []
              else if decide (c = "All") then [] else [CategoryEq c]
  | None => []
  end.

(** [date(tx_date)], the date-portion of a row. *)
Definition date_portion (r : expense) : option string := sqlite_date (tx_date r).

Definition eval_condition (c : condition) (r : expense) : option bool :=
  match c with
  | DateGe p => sql_ge (date_portion r) (sqlite_date p)
  | DateLe p => sql_le (date_portion r) (sqlite_date p)
  | CategoryEq p => Some (bool_decide (category r = p))
  end.

(** The value of [1=1 AND c1 AND ... AND cn] on a row. *)
Definition eval_where (cs : list condition) (r : expense) : option bool :=
  foldl (fun acc c => sql_and acc (eval_condition c r)) (Some true) cs.

(** A row is selected when the WHERE expression is TRUE (not FALSE, not NULL). *)
Definition selected (cs : list condition) (r : expense) : Prop :=
  eval_where cs r = Some true.

Global Instance selected_dec cs r : Decision (selected cs r).
Proof. unfold selected. apply _. Defined.

(** [ORDER BY date(tx_date) DESC, id DESC]: [x] may stand before [y]. *)
Definition order_by (x y : expense) : bool :=
  match sql_compare (date_portion x) (date_portion y) with
  | Gt => true
  | Lt => false
  | Eq => id y <=? id x
  end.

Definition before : relation expense := fun x y => order_by x y = true.

Global Instance before_dec : RelDecision before.
Proof. intros x y. unfold before. apply _. Defined.

Definition fetch_expenses (start_date end_date category : option string)
    (t : table) : list expense :=
  merge_sort before
    (filter (selected (where_clause start_date end_date category)) (rows t)).

(** What the listing is meant to satisfy, in the words of its contract:
    [x] is listed before [y] only if its date is not earlier and, on equal
    dates, its id is not smaller. *)
Definition date_desc_id_desc : relation expense := fun x y =>
  sql_order_le (date_portion y) (date_portion x) /\
  (date_portion x = date_portion y -> id y <= id x).

(** The date-portion of [r] exists and is not before [a] / not after [b]. *)
Definition on_or_after (a : string) (r : expense) : Prop :=
  match date_portion r with
  | Some d => String.le a d
  | None => False
  end.

Definition on_or_before (b : string) (r : expense) : Prop :=
  match date_portion r with
  | Some d => String.le d b
  | None => False
  end.

Global Instance on_or_after_dec a r : Decision (on_or_after a r).
Proof. unfold on_or_after. destruct (date_portion r); apply _. Defined.

Global Instance on_or_before_dec b r : Decision (on_or_before b r).
Proof. unfold on_or_before. destruct (date_portion r); apply _. Defined.

(** What each of the three [if]s contributes to the predicate. *)
Definition start_passes (s : option string) (r : expense) : Prop :=
  match s with
  | Some p => p = "" \/ exists a, sqlite_date p = Some a /\ on_or_after a r
  | None => True
  end.

Definition end_passes (e : option string) (r : expense) : Prop :=
  match e with
  | Some p => p = "" \/ exists b, sqlite_date p = Some b /\ on_or_before b r
  | None => True
  end.

(** The category argument of the listing: absent, empty and the sentinel
    ["All"] let every row pass. *)
Definition category_passes (c : option string) (r : expense) : Prop :=
  match c with
  | Some c' => c' = "" \/ c' = "All" \/ category r = c'
  | None => True
  end.

Global Instance category_passes_dec c r : Decision (category_passes c r).
Proof. unfold category_passes. destruct c; apply _. Defined.

(** [DELETE FROM expenses WHERE id = ?] *)
Definition delete_expense (expense_id : Z) (t : table) : table :=
  {| rows := filter (fun r => id r <> expense_id) (rows t); seq := seq t |}.

(** [UPDATE expenses SET tx_date=?, ... WHERE id=?] *)
Definition update_expense (expense_id : Z) (tx_date category description : string)
    (amount : real) (payment_method : string) (t : table) : table :=
  {| rows := (fun r => if decide (id r = expense_id)
                       then Expense (id r) tx_date category description
                              amount payment_method
                       else r) <$> rows t;
     seq := seq t |}.

(** *** Histories of the table *)

(** A write the dashboard can issue. *)
Inductive op : Type :=
  | OpAdd (tx_date category description : string) (amount : real)
      (payment_method : string)
  | OpUpdate (expense_id : Z) (tx_date category description : string)
      (amount : real) (payment_method : string)
  | OpDelete (expense_id : Z).

Definition apply_op (o : op) (t : table) : result table :=
  match o with
  | OpAdd d c ds a pm => add_expense d c ds a pm t
  | OpUpdate i d c ds a pm => Ok (update_expense i d c ds a pm t)
  | OpDelete i => Ok (delete_expense i t)
  end.

(** The writes of [ops] in order; the first failure ends the run. *)
Fixpoint run (ops : list op) (t : table) : result table :=
  match ops with
  | [] => Ok t
  | o :: ops' => bind (apply_op o t) (run ops')
  end.

(** The shape of a table the program has built: ids are unique (PRIMARY
    KEY) and none exceeds the counter (AUTOINCREMENT). *)
Definition table_ok (t : table) : Prop :=
  NoDup (id <$> rows t) /\ Forall (fun r => id r <= seq t) (rows t).

(** *** Summaries of a listing *)

(** [Series.sum()]: accumulate from zero, first row first. Every step is an
    addition of the carrier; at binary64 each one rounds, so the result
    depends on the order of the rows and is not the arithmetic sum in general.
    numpy and pandas may group the additions of a long column in another way,
    which moves the rounding; the statements about totals below are about
    this accumulation and assume no law of [add]. *)
Definition series_sum (xs : list real) : real := foldl add zero xs.

(** [df['amount'].sum()] *)
Definition total_spend (df : list expense) : real := series_sum (amount <$> df).

(** [df.groupby('category', as_index=False)['amount'].sum()]: one row per
    category, keys ascending. *)
Definition groupby_category_sum (df : list expense) : list (string * real) :=
  (fun c => (c, series_sum (amount <$> filter (fun r => category r = c) df)))
    <$> merge_sort String.le (remove_dups (category <$> df)).

(** [sort_values('amount', ascending=False)]: [x] may stand before [y].
    Rows with equal amounts keep the order the merge gives them; pandas
    promises none. *)
Definition amount_desc : relation (string * real) :=
  fun x y => amount_leb y.2 x.2 = true.

Global Instance amount_desc_dec : RelDecision amount_desc.
Proof. intros x y. unfold amount_desc. apply _. Defined.

Definition by_category (df : list expense) : list (string * real) :=
  merge_sort amount_desc (groupby_category_sum df).

(** [resample('MS')['amount'].sum()] on rows indexed by timestamp: the bins
    are the months from the earliest to the latest index value, each
    labelled by its first day and holding the sum of its rows. *)
Definition resample_MS_sum (ix : list (Timestamp * real))
    : list (Timestamp * real) :=
  match (fun p => month_ordinal p.1) <$> ix with
  | [] => []
  | o :: os =>
      let lo := foldr Z.min o os in
      let hi := foldr Z.max o os in
      (fun n => (month_start n,
                 series_sum (snd <$> filter (fun p => month_ordinal p.1 = n) ix)))
        <$> seqZ lo (hi - lo + 1)
  end.

(** [df['tx_date'] = pd.to_datetime(df['tx_date'])] followed by
    [df.set_index('tx_date').resample('MS')['amount'].sum().reset_index()];
    [None] when some text has no timestamp. *)
Definition by_month (df : list expense) : option (list (Timestamp * real)) :=
  ts ← mapM to_datetime (tx_date <$> df);
  Some (resample_MS_sum (zip ts (amount <$> df))).







(** The summary block of the page: nothing is computed for an empty listing. *)
Inductive summary_view : Type :=
  | NoExpenses (info : string)
  | Kpis (total : real) (transactions : nat)
      (categories : list (string * real)) (months : list (Timestamp * real)).

Definition summary (df : list expense) : option summary_view :=
  match df with
  | [] => Some (NoExpenses "No expenses found. Add some using the sidebar.")
  | _ :: _ =>
      m ← by_month df;
      Some (Kpis (total_spend df) (length df) (by_category df) m)
  end.

(** *** The sidebar form *)

(** What a run of the form shows and which storage call it makes. *)
Inductive event : Type :=
  | StWarning (msg : string)
  | StSuccess (msg : string)
  | CallAddExpense (tx_date category description : string) (amount : real)
      (payment_method : string).

(** The body of [with st.sidebar.form("add_expense_form")] after the
    widgets have been read. *)
Definition add_expense_form (submitted : bool) (tx_date : pydate)
    (category description : string) (amount : real) (payment_method : string)
    (t : table) : result (table * list event) :=
  if submitted then
    if amount_leb amount zero then
      Ok (t, [StWarning "Amount must be greater than 0."])
    else
      let d := isoformat tx_date in
      let ds := py_strip description in
      bind (add_expense d category ds amount payment_method t) (fun t' =>
        Ok (t', [CallAddExpense d category ds amount payment_method;
                 StSuccess "Expense added!"]))
  else Ok (t, []).

(** *** The rest of the page *)

(** The number of creates in a history. *)
Fixpoint creates (ops : list op) : Z :=
  match ops with
  | [] => 0
  | OpAdd _ _ _ _ _ :: ops' => 1 + creates ops'
  | _ :: ops' => creates ops'
  end.

(** The filter bar: a date widget left empty is [None], a chosen date goes to
    the query in ISO form, and the category box always holds a choice. *)
Definition filter_bar (start_date end_date : option pydate)
    (filter_category : string) (t : table) : list expense :=
  fetch_expenses (isoformat <$> start_date) (isoformat <$> end_date)
    (Some filter_category) t.


(** [df[df['id'] == selected_id].iloc[0]] *)
Definition select_row (df : list expense) (selected_id : Z) : option expense :=
  head (filter (fun r => id r = selected_id) df).

(** The values of the five edit widgets. *)
Record edit_values : Type := EditValues {
  new_date : pydate;
  new_category : string;
  new_amount : real;
  new_desc : string;
  new_method : string
}.

(** What the edit widgets hold for a row before the user changes anything.
    [None] where the page stops with an error instead: the date has no
    timestamp, or the amount is below the [min_value=0.0] of the number box. *)
Definition edit_defaults (row : expense) : option edit_values :=
  ts ← to_datetime (tx_date row);
  if amount_leb zero (amount row) then
    Some {| new_date := ts_date ts;
            new_category :=
              selectbox_initial CATEGORIES (index_or_0 CATEGORIES (category row));
            new_amount := amount row;
            new_desc := description row;
            new_method :=
              selectbox_initial PAYMENT_METHODS
                (index_or_0 PAYMENT_METHODS (payment_method row)) |}
  else None.

(** The "Update" button. *)
Definition edit_update (selected_id : Z) (v : edit_values) (t : table) : table :=
  update_expense selected_id (isoformat (new_date v)) (new_category v)
    (new_desc v) (new_amount v) (new_method v) t.

(** * Properties *)

(** ** Text order and the SQL comparisons *)

Lemma string_compare_refl (s : string) : String.compare s s = Eq.
Proof.
  induction s as [|a s IH]; simpl; [done|].
  unfold Ascii.compare. by rewrite N.compare_refl.
Qed.

Global Instance sql_order_le_refl : Reflexive sql_order_le.
Proof. intros [s|]; simpl; done. Qed.

Global Instance sql_order_le_trans : Transitive sql_order_le.
Proof.
  intros [a|] [b|] [c|]; simpl; try done.
  intros ? ?. by etrans.
Qed.

Lemma sql_order_le_antisym (x y : option string) :
  sql_order_le x y -> sql_order_le y x -> x = y.
Proof.
  destruct x as [a|], y as [b|]; simpl; try done.
  intros H1 H2. f_equal. by apply (anti_symm String.le).
Qed.

Lemma sql_compare_Eq (x y : option string) : sql_compare x y = Eq -> x = y.
Proof.
  destruct x as [a|], y as [b|]; simpl; try done.
  intros H. f_equal. by apply String.compare_eq_iff.
Qed.

Lemma sql_compare_Gt (x y : option string) :
  sql_compare x y = Gt -> sql_order_le y x /\ x <> y.
Proof.
  destruct x as [a|], y as [b|]; simpl; try done.
  intros H. split.
  - unfold String.le, String.leb. rewrite String.compare_antisym, H. done.
  - intros [= ->]. by rewrite string_compare_refl in H.
Qed.

Lemma sql_compare_Lt (x y : option string) :
  sql_compare x y = Lt -> sql_order_le x y /\ x <> y.
Proof.
  destruct x as [a|], y as [b|]; simpl; try done.
  intros H. split.
  - unfold String.le, String.leb. by rewrite H.
  - intros [= ->]. by rewrite string_compare_refl in H.
Qed.

Lemma sql_ge_true (x y : option string) :
  sql_ge x y = Some true <-> exists a b, x = Some a /\ y = Some b /\ String.le b a.
Proof.
  destruct x as [a|], y as [b|]; simpl;
    try (split; [done | by intros (? & ? & ? & ? & _)]).
  unfold text_leb, String.le. split.
  - intros [= H]. exists a, b. by rewrite H.
  - intros (a' & b' & [= <-] & [= <-] & H). f_equal. by apply Is_true_true.
Qed.

Lemma sql_le_true (x y : option string) :
  sql_le x y = Some true <-> exists a b, x = Some a /\ y = Some b /\ String.le a b.
Proof.
  destruct x as [a|], y as [b|]; simpl;
    try (split; [done | by intros (? & ? & ? & ? & _)]).
  unfold text_leb, String.le. split.
  - intros [= H]. exists a, b. by rewrite H.
  - intros (a' & b' & [= <-] & [= <-] & H). f_equal. by apply Is_true_true.
Qed.

Lemma sql_and_true (x y : option bool) :
  sql_and x y = Some true <-> x = Some true /\ y = Some true.
Proof. destruct x as [[]|], y as [[]|]; simpl; split; try done; by intros []. Qed.

(** *** The ORDER BY relation *)

Lemma before_spec (x y : expense) :
  before x y <-> date_desc_id_desc x y.
Proof.
  unfold before, order_by, date_desc_id_desc.
  destruct (sql_compare (date_portion x) (date_portion y)) eqn:Hc.
  - apply sql_compare_Eq in Hc. rewrite Hc. rewrite Z.leb_le.
    split; [intros ?; split; [reflexivity|done] | intros [_ H]; by apply H].
  - apply sql_compare_Lt in Hc as [Hle Hne]. split; [done|].
    intros [Hge _]. destruct Hne. by apply sql_order_le_antisym.
  - apply sql_compare_Gt in Hc as [Hle Hne]. split; [|done].
    intros _. split; [done|]. intros Heq. by destruct Hne.
Qed.

Global Instance before_total : Total before.
Proof.
  intros x y. rewrite !before_spec. unfold date_desc_id_desc.
  destruct (sql_compare (date_portion x) (date_portion y)) eqn:Hc.
  - apply sql_compare_Eq in Hc. rewrite Hc.
    destruct (decide (id y <= id x)); [left|right]; (split; [reflexivity|lia]).
  - apply sql_compare_Lt in Hc as [Hle Hne]. right. split; [done|].
    intros Heq. by destruct Hne.
  - apply sql_compare_Gt in Hc as [Hle Hne]. left. split; [done|].
    intros Heq. by destruct Hne.
Qed.

Global Instance before_trans : Transitive before.
Proof.
  intros x y z. rewrite !before_spec. unfold date_desc_id_desc.
  intros [Hyx Hixy] [Hzy Hiyz]. split; [by etrans|].
  intros Heq. rewrite Heq in Hyx.
  assert (date_portion y = date_portion z) as Hyz
    by (by apply sql_order_le_antisym).
  rewrite <- Hyz in Heq. specialize (Hixy Heq). specialize (Hiyz Hyz). lia.
Qed.

(** *** The WHERE expression *)

Lemma eval_where_foldl (cs : list condition) (r : expense) (acc : option bool) :
  foldl (fun acc c => sql_and acc (eval_condition c r)) acc cs = Some true
  <-> acc = Some true /\ Forall (fun c => eval_condition c r = Some true) cs.
Proof.
  revert acc. induction cs as [|c cs IH]; intros acc; simpl.
  - split; [intros ->; by split | by intros [-> _]].
  - rewrite IH, sql_and_true, Forall_cons.
    split; [intros [[? ?] ?] | intros [? [? ?]]]; repeat split; assumption.
Qed.

Lemma selected_Forall (cs : list condition) (r : expense) :
  selected cs r <-> Forall (fun c => eval_condition c r = Some true) cs.
Proof.
  unfold selected, eval_where. rewrite eval_where_foldl.
  split; [by intros [_ ?] | by split].
Qed.

Lemma fetch_expenses_Permutation (s e c : option string) (t : table) :
  fetch_expenses s e c t ≡ₚ filter (selected (where_clause s e c)) (rows t).
Proof. unfold fetch_expenses. apply merge_sort_Permutation. Qed.

Lemma elem_of_fetch_expenses (s e c : option string) (t : table) (r : expense) :
  r ∈ fetch_expenses s e c t <-> selected (where_clause s e c) r /\ r ∈ rows t.
Proof. rewrite fetch_expenses_Permutation. apply list_elem_of_filter. Qed.

Lemma filter_none {A : Type} (P : A -> Prop) `{!forall x, Decision (P x)}
    (l : list A) :
  (forall x, x ∈ l -> ~ P x) -> filter P l = [].
Proof.
  induction l as [|x l IH]; intros Hall; [done|].
  rewrite filter_cons_False by (apply Hall; left).
  apply IH. intros y Hy. apply Hall. by right.
Qed.

Lemma filter_all {A : Type} (P : A -> Prop) `{!forall x, Decision (P x)}
    (l : list A) :
  (forall x, x ∈ l -> P x) -> filter P l = l.
Proof.
  induction l as [|x l IH]; intros Hall; [done|].
  rewrite filter_cons_True by (apply Hall; left).
  f_equal. apply IH. intros y Hy. apply Hall. by right.
Qed.

Lemma StronglySorted_impl {A : Type} (R R' : relation A) (l : list A) :
  (forall x y, R x y -> R' x y) -> StronglySorted R l -> StronglySorted R' l.
Proof.
  intros HR. induction 1 as [|x l Hl IH Hx]; constructor; [done|].
  eapply Forall_impl; [exact Hx | auto].
Qed.

Lemma eval_DateGe (p : string) (r : expense) :
  eval_condition (DateGe p) r = Some true
  <-> exists a, sqlite_date p = Some a /\ on_or_after a r.
Proof.
  simpl. rewrite sql_ge_true. unfold on_or_after. split.
  - intros (d & a & Hd & Ha & Hle). exists a. by rewrite Hd.
  - intros (a & Ha & Hr). destruct (date_portion r) as [d|]; [|done].
    by exists d, a.
Qed.

Lemma eval_DateLe (p : string) (r : expense) :
  eval_condition (DateLe p) r = Some true
  <-> exists b, sqlite_date p = Some b /\ on_or_before b r.
Proof.
  simpl. rewrite sql_le_true. unfold on_or_before. split.
  - intros (d & b & Hd & Hb & Hle). exists b. by rewrite Hd.
  - intros (b & Hb & Hr). destruct (date_portion r) as [d|]; [|done].
    by exists d, b.
Qed.

Lemma selected_where_clause (s e c : option string) (r : expense) :
  selected (where_clause s e c) r
  <-> start_passes s r /\ end_passes e r /\ category_passes c r.
Proof.
  rewrite selected_Forall. unfold where_clause. rewrite !Forall_app.
  f_equiv; [|f_equiv].
  - destruct s as [p|]; simpl; [|by split].
    case_decide as Hp; [split; [by left | done]|].
    rewrite Forall_singleton, eval_DateGe. split; [by right | by intros [?|?]].
  - destruct e as [p|]; simpl; [|by split].
    case_decide as Hp; [split; [by left | done]|].
    rewrite Forall_singleton, eval_DateLe. split; [by right | by intros [?|?]].
  - destruct c as [p|]; simpl; [|by split].
    case_decide as Hp; [split; [by left | done]|].
    case_decide as Hq; [split; [by right; left | done]|].
    rewrite Forall_singleton. simpl. split.
    + intros [= H]. right; right. by apply bool_decide_eq_true in H.
    + intros [?|[?|?]]; [done..|]. f_equal. by apply bool_decide_eq_true.
Qed.

(** C5. With the bounds [A] and [B] given (non-empty texts whose dates are
    [a] and [b]) the listing is, up to order, exactly the stored rows whose
    date-portion [d] exists and satisfies [a <= d] and [d <= b] (both
    inclusive), among those the category argument lets pass. With [A]
    omitted the query carries no lower-bound conjunct and only the upper
    bound restricts the dates; likewise with [B] omitted; with both omitted
    every stored row passes the date test. *)
Theorem fetch_expenses_date_range (A B a b : string) (c : option string)
    (t : table) :
  A <> "" -> B <> "" -> sqlite_date A = Some a -> sqlite_date B = Some b ->
  Permutation (fetch_expenses (Some A) (Some B) c t)
    (filter (fun r => on_or_after a r /\ on_or_before b r /\ category_passes c r)
       (rows t))
  /\ (Permutation (fetch_expenses None (Some B) c t)
        (filter (fun r => on_or_before b r /\ category_passes c r) (rows t))
      /\ forall p, ~ In (DateGe p) (where_clause None (Some B) c))
  /\ (Permutation (fetch_expenses (Some A) None c t)
        (filter (fun r => on_or_after a r /\ category_passes c r) (rows t))
      /\ forall p, ~ In (DateLe p) (where_clause (Some A) None c))
  /\ Permutation (fetch_expenses None None c t)
       (filter (category_passes c) (rows t)).
Proof.
  intros HA HB Ha Hb.
  assert (forall r, start_passes (Some A) r <-> on_or_after a r) as Hs.
  { intros r. simpl. split; [|intros ?; right; by exists a].
    intros [?|(a' & Ha' & ?)]; [done|]. by simplify_eq. }
  assert (forall r, end_passes (Some B) r <-> on_or_before b r) as He.
  { intros r. simpl. split; [|intros ?; right; by exists b].
    intros [?|(b' & Hb' & ?)]; [done|]. by simplify_eq. }
  repeat split.
  - rewrite fetch_expenses_Permutation. apply reflexive_eq, list_filter_iff.
    intros r. by rewrite selected_where_clause, Hs, He.
  - rewrite fetch_expenses_Permutation. apply reflexive_eq, list_filter_iff.
    intros r. rewrite selected_where_clause, He. simpl.
      split; [by intros (_ & ? & ?) | by intros (? & ?)].
  - intros p. unfold where_clause. simpl. case_decide; [done|].
    intros [?|Hin]; [done|]. destruct c as [c'|]; [|done].
    repeat case_decide; simpl in Hin; [done..|]. by destruct Hin.
  - rewrite fetch_expenses_Permutation. apply reflexive_eq, list_filter_iff.
    intros r. rewrite selected_where_clause, Hs. simpl.
      split; [by intros (? & _ & ?) | by intros (? & ?)].
  - intros p. unfold where_clause. simpl. case_decide; [done|].
    intros [?|Hin]; [done|]. destruct c as [c'|]; [|done].
    repeat case_decide; simpl in Hin; [done..|]. by destruct Hin.
  - rewrite fetch_expenses_Permutation. apply reflexive_eq, list_filter_iff.
    intros r. rewrite selected_where_clause. simpl.
      split; [by intros (_ & _ & ?) | done].
Qed.

(** C6. Whatever the filters, the listing is sorted descending by
    date-portion and, among rows of the same date, descending by id; when no
    stored row matches, the listing is the empty sequence. [fetch_expenses]
    is a total function, so there is no error case. *)
Theorem fetch_expenses_sorted (start_date end_date category : option string)
    (t : table) :
  StronglySorted date_desc_id_desc (fetch_expenses start_date end_date category t)
  /\ ((forall r, In r (rows t) ->
          ~ selected (where_clause start_date end_date category) r) ->
      fetch_expenses start_date end_date category t = []).
Proof.
  split.
  - apply (StronglySorted_impl before); [intros x y; apply before_spec|].
    unfold fetch_expenses. apply StronglySorted_merge_sort; apply _.
  - intros H. unfold fetch_expenses. rewrite filter_none; [done|].
    intros r Hr. apply H. by apply list_elem_of_In.
Qed.

(** *** The table invariant along a history *)

Lemma foldr_max_init (z : Z) (l : list Z) : z <= foldr Z.max z l.
Proof. induction l as [|x l IH]; simpl; lia. Qed.

Lemma foldr_max_elem (z x : Z) (l : list Z) : x ∈ l -> x <= foldr Z.max z l.
Proof.
  induction l as [|y l IH]; [by intros ?%elem_of_nil|].
  intros [->|Hin]%elem_of_cons; simpl; [lia|]. specialize (IH Hin). lia.
Qed.

Lemma top_rowid_seq (t : table) : seq t <= top_rowid t.
Proof. apply foldr_max_init. Qed.

Lemma top_rowid_id (t : table) (r : expense) : r ∈ rows t -> id r <= top_rowid t.
Proof. intros Hr. apply foldr_max_elem. by apply list_elem_of_fmap_2. Qed.

Lemma add_expense_Ok (d c ds : string) (a : real) (pm : string) (t t' : table) :
  add_expense d c ds a pm t = Ok t' ->
  top_rowid t < MAX_ROWID
  /\ t' = Table (rows t ++ [Expense (top_rowid t + 1) d c ds a pm])
            (top_rowid t + 1).
Proof.
  unfold add_expense. case_decide; [done|]. intros [= <-]. split; [lia|done].
Qed.

Lemma add_expense_succeeds (d c ds : string) (a : real) (pm : string) (t : table) :
  top_rowid t < MAX_ROWID ->
  add_expense d c ds a pm t
  = Ok (Table (rows t ++ [Expense (top_rowid t + 1) d c ds a pm])
          (top_rowid t + 1)).
Proof. intros Hlt. unfold add_expense. case_decide; [lia|done]. Qed.

Lemma empty_table_ok : table_ok empty_table.
Proof. split; simpl; constructor. Qed.

Lemma add_expense_ok (d c ds : string) (a : real) (pm : string) (t t' : table) :
  table_ok t -> add_expense d c ds a pm t = Ok t' -> table_ok t'.
Proof.
  intros [Hnd Hle] [_ ->]%add_expense_Ok. split; simpl.
  - rewrite fmap_app. apply NoDup_app. split; [done|]. split.
    + intros i [r [-> Hr]]%list_elem_of_fmap [= Heq]%list_elem_of_singleton.
      apply top_rowid_id in Hr. lia.
    + apply NoDup_singleton.
  - apply Forall_app. split.
    + eapply Forall_impl; [exact Hle|]. intros r Hr. simpl in *.
      pose proof (top_rowid_seq t). lia.
    + apply Forall_singleton. simpl. lia.
Qed.

Lemma delete_expense_ok (i : Z) (t : table) :
  table_ok t -> table_ok (delete_expense i t).
Proof.
  intros [Hnd Hle]. split; simpl.
  - eapply sublist_NoDup; [exact Hnd|]. apply fmap_sublist, sublist_filter.
  - apply Forall_forall. intros r [_ Hr]%list_elem_of_filter.
    by apply (proj1 (Forall_forall _ _) Hle).
Qed.

Lemma update_expense_ids (i : Z) (d c ds : string) (a : real) (pm : string)
    (t : table) :
  id <$> rows (update_expense i d c ds a pm t) = id <$> rows t.
Proof.
  simpl. rewrite <- list_fmap_compose. apply list_fmap_ext.
  intros k r _. simpl. by case_decide.
Qed.

Lemma update_expense_ok (i : Z) (d c ds : string) (a : real) (pm : string)
    (t : table) :
  table_ok t -> table_ok (update_expense i d c ds a pm t).
Proof.
  intros [Hnd Hle]. split.
  - by rewrite update_expense_ids.
  - simpl. apply Forall_fmap. eapply Forall_impl; [exact Hle|].
    intros r Hr. simpl. by case_decide.
Qed.

Lemma apply_op_ok (o : op) (t t' : table) :
  table_ok t -> apply_op o t = Ok t' -> table_ok t'.
Proof.
  intros Hok. destruct o; simpl.
  - by apply add_expense_ok.
  - intros [= <-]. by apply update_expense_ok.
  - intros [= <-]. by apply delete_expense_ok.
Qed.

Lemma apply_op_seq (o : op) (t t' : table) :
  apply_op o t = Ok t' -> seq t <= seq t'.
Proof.
  destruct o; simpl.
  - intros [_ ->]%add_expense_Ok. simpl. pose proof (top_rowid_seq t). lia.
  - by intros [= <-].
  - by intros [= <-].
Qed.

Lemma run_cons (o : op) (ops : list op) (t t' : table) :
  run (o :: ops) t = Ok t' <-> exists t1, apply_op o t = Ok t1 /\ run ops t1 = Ok t'.
Proof.
  simpl. destruct (apply_op o t) as [t1|e]; simpl.
  - split; [intros ?; by exists t1 | by intros (? & [= <-] & ?)].
  - split; [done | by intros (? & ? & _)].
Qed.

Lemma run_ok (ops : list op) (t t' : table) :
  table_ok t -> run ops t = Ok t' -> table_ok t'.
Proof.
  revert t. induction ops as [|o ops IH]; intros t Hok.
  - by intros [= <-].
  - intros (t1 & Ho & Hrun)%run_cons. eapply IH; [|exact Hrun].
    by eapply apply_op_ok.
Qed.

Lemma run_seq (ops : list op) (t t' : table) :
  run ops t = Ok t' -> seq t <= seq t'.
Proof.
  revert t. induction ops as [|o ops IH]; intros t.
  - by intros [= <-].
  - intros (t1 & Ho%apply_op_seq & Hrun%IH)%run_cons. lia.
Qed.

Lemma table_ok_top_rowid (t : table) : table_ok t -> top_rowid t = seq t.
Proof.
  intros [_ Hle]. unfold top_rowid.
  induction Hle as [|r l Hr Hl IH]; [done|].
  rewrite fmap_cons. simpl. rewrite IH. lia.
Qed.

(** *** Create, update and delete as seen through the listing *)

Lemma fetch_all_Permutation (t : table) :
  fetch_expenses None None None t ≡ₚ rows t.
Proof.
  rewrite fetch_expenses_Permutation. apply reflexive_eq.
  induction (rows t) as [|r l IH]; [done|].
  rewrite filter_cons_True by done. by f_equal.
Qed.

Lemma in_fetch_all (t : table) (r : expense) :
  In r (fetch_expenses None None None t) <-> In r (rows t).
Proof. by rewrite <- !list_elem_of_In, fetch_all_Permutation. Qed.

(** An id at or below the counter that is absent stays absent. *)
Lemma apply_op_absent (o : op) (t t' : table) (i : Z) :
  i <= seq t -> (forall r, r ∈ rows t -> id r <> i) ->
  apply_op o t = Ok t' -> forall r, r ∈ rows t' -> id r <> i.
Proof.
  intros Hi Habs. destruct o; simpl.
  - intros [_ ->]%add_expense_Ok r. simpl.
    intros [Hr|Hr%list_elem_of_singleton]%elem_of_app; [by apply Habs|].
    subst r. simpl. pose proof (top_rowid_seq t). lia.
  - intros [= <-] r. simpl. intros (r0 & -> & Hr0)%list_elem_of_fmap.
    case_decide; simpl; by apply Habs.
  - intros [= <-] r. simpl. intros [_ Hr]%list_elem_of_filter. by apply Habs.
Qed.

Lemma run_absent (ops : list op) (t t' : table) (i : Z) :
  i <= seq t -> (forall r, r ∈ rows t -> id r <> i) ->
  run ops t = Ok t' -> forall r, r ∈ rows t' -> id r <> i.
Proof.
  revert t. induction ops as [|o ops IH]; intros t Hi Habs.
  - by intros [= <-].
  - intros (t1 & Ho & Hrun)%run_cons. eapply (IH t1); [| |exact Hrun].
    + apply apply_op_seq in Ho. lia.
    + by eapply apply_op_absent.
Qed.

Lemma delete_expense_absent (i : Z) (t : table) :
  (forall r, In r (rows t) -> id r <> i) -> delete_expense i t = t.
Proof.
  intros Habs. destruct t as [l n]. unfold delete_expense. simpl in *. f_equal.
  induction l as [|r l IH]; [done|].
  rewrite filter_cons_True by (apply Habs; by left).
  f_equal. apply IH. intros r' Hr'. apply Habs. by right.
Qed.

Lemma update_expense_absent (i : Z) (d c ds : string) (a : real) (pm : string)
    (t : table) :
  (forall r, In r (rows t) -> id r <> i) -> update_expense i d c ds a pm t = t.
Proof.
  intros Habs. destruct t as [l n]. unfold update_expense. simpl in *. f_equal.
  induction l as [|r l IH]; [done|].
  rewrite fmap_cons. rewrite decide_False by (apply Habs; by left).
  f_equal. apply IH. intros r' Hr'. apply Habs. by right.
Qed.

(** C2. In a table the program has built and whose counter has not reached
    the largest rowid, [add_expense] succeeds; the unfiltered listing
    afterwards is the listing before plus exactly one record, that record
    carries the inputs, and its id occurs in no earlier state of the table
    ([t0] is any state on the way to [t], [t] itself included) and on no
    other listed record. The inputs need not be valid for this to hold. *)
Theorem add_expense_fetch (ops0 ops1 : list op) (t0 t : table)
    (d c ds : string) (a : real) (pm : string) :
  run ops0 empty_table = Ok t0 -> run ops1 t0 = Ok t -> seq t < MAX_ROWID ->
  exists t' i,
    add_expense d c ds a pm t = Ok t'
    /\ i = seq t + 1
    /\ Permutation (fetch_expenses None None None t')
         (Expense i d c ds a pm :: fetch_expenses None None None t)
    /\ length (fetch_expenses None None None t')
       = S (length (fetch_expenses None None None t))
    /\ (forall r, In r (rows t0) -> id r <> i)
    /\ (forall r, In r (rows t) -> id r <> i)
    /\ (forall r, In r (fetch_expenses None None None t') -> id r = i ->
          r = Expense i d c ds a pm).
Proof.
  intros H0 H1 Hseq.
  assert (table_ok t0) as Hok0 by (eapply run_ok; [apply empty_table_ok|done]).
  assert (table_ok t) as Hok by (by eapply run_ok).
  pose proof (table_ok_top_rowid t Hok) as Htop.
  pose proof (run_seq _ _ _ H1) as Hmono.
  eexists _, (seq t + 1).
  rewrite add_expense_succeeds by lia. rewrite Htop.
  set (t' := Table _ _).
  assert (Permutation (fetch_expenses None None None t')
            (Expense (seq t + 1) d c ds a pm :: fetch_expenses None None None t))
    as Hperm.
  { rewrite !fetch_all_Permutation. unfold t'. simpl.
    by rewrite Permutation_app_comm. }
  split; [done|]. split; [done|]. split; [done|]. split.
  { exact (Permutation_length Hperm). }
  assert (forall t1, table_ok t1 -> seq t1 <= seq t ->
            forall r, In r (rows t1) -> id r <> seq t + 1) as Hfresh.
  { intros t1 [_ Hle] Hs r Hr%list_elem_of_In.
    pose proof (proj1 (Forall_forall _ _) Hle r Hr). simpl in *. lia. }
  split; [by apply Hfresh|]. split; [by apply Hfresh|].
  intros r Hr Hid. apply in_fetch_all in Hr. unfold t' in Hr. simpl in Hr.
  apply in_app_or in Hr as [Hr|[<-|[]]]; [|done].
  exfalso. by apply (Hfresh t Hok (Z.le_refl _) r).
Qed.

(** C3. Right after [delete_expense i] no listing, whatever its filters,
    returns a record with id [i]. If [i] was the id of a stored record at
    some point before the delete, this stays so after any further creates,
    updates and deletes. Deleting an id that is not stored returns the
    table as it was, so every listing is unchanged; [delete_expense] is a
    total function and has no error case. *)
Theorem delete_expense_fetch :
  (forall (i : Z) (t : table) (s e c : option string) (r : expense),
      In r (fetch_expenses s e c (delete_expense i t)) -> id r <> i)
  /\ (forall (ops0 ops1 ops2 : list op) (t0 t t2 : table) (i : Z),
        run ops0 empty_table = Ok t0 ->
        (exists r0, In r0 (rows t0) /\ id r0 = i) ->
        run ops1 t0 = Ok t ->
        run ops2 (delete_expense i t) = Ok t2 ->
        forall (s e c : option string) (r : expense),
          In r (fetch_expenses s e c t2) -> id r <> i)
  /\ (forall (i : Z) (t : table),
        (forall r, In r (rows t) -> id r <> i) ->
        delete_expense i t = t
        /\ forall s e c : option string,
             fetch_expenses s e c (delete_expense i t) = fetch_expenses s e c t).
Proof.
  assert (forall (i : Z) (t : table) (r : expense),
            r ∈ rows (delete_expense i t) -> id r <> i) as Hnow.
  { intros i t r. simpl. by intros [? _]%list_elem_of_filter. }
  split; [|split].
  - intros i t s e c r [_ Hr]%list_elem_of_In%elem_of_fetch_expenses.
    by eapply Hnow.
  - intros ops0 ops1 ops2 t0 t t2 i H0 (r0 & Hr0 & Hid) H1 H2 s e c r
      [_ Hr]%list_elem_of_In%elem_of_fetch_expenses.
    assert (table_ok t0) as [_ Hle] by (eapply run_ok; [apply empty_table_ok|done]).
    apply list_elem_of_In in Hr0.
    pose proof (proj1 (Forall_forall _ _) Hle r0 Hr0) as Hb. simpl in Hb.
    pose proof (run_seq _ _ _ H1) as Hmono.
    eapply (run_absent ops2 (delete_expense i t) t2 i); [simpl; lia| |done..].
    intros r'. apply Hnow.
  - intros i t Habs. rewrite delete_expense_absent by done. by split.
Qed.

(** C4. For a stored record [r], after [update_expense (id r) ...] the
    unfiltered listing contains the record with id [id r] and the five
    supplied fields, every listed record with that id is that record, and
    the listing has as many records as before. With an id that is not
    stored, [update_expense] returns the table as it was; it is a total
    function and has no error case. *)
Theorem update_expense_fetch :
  (forall (t : table) (r : expense) (d c ds : string) (a : real) (pm : string),
      In r (rows t) ->
      In (Expense (id r) d c ds a pm)
        (fetch_expenses None None None (update_expense (id r) d c ds a pm t))
      /\ (forall r',
            In r' (fetch_expenses None None None
                     (update_expense (id r) d c ds a pm t)) ->
            id r' = id r -> r' = Expense (id r) d c ds a pm)
      /\ length (fetch_expenses None None None (update_expense (id r) d c ds a pm t))
         = length (fetch_expenses None None None t))
  /\ (forall (i : Z) (t : table) (d c ds : string) (a : real) (pm : string),
        (forall r, In r (rows t) -> id r <> i) ->
        update_expense i d c ds a pm t = t).
Proof.
  split; [|intros; by apply update_expense_absent].
  intros t r d c ds a pm Hr. split; [|split].
  - apply in_fetch_all, list_elem_of_In. simpl.
    apply list_elem_of_fmap. exists r. rewrite decide_True by done.
    split; [done | by apply list_elem_of_In].
  - intros r' Hr'%in_fetch_all%list_elem_of_In Hid. simpl in Hr'.
    apply list_elem_of_fmap in Hr' as (r0 & -> & _).
    case_decide as Hd; simpl in *; congruence.
  - rewrite (Permutation_length (fetch_all_Permutation _)).
    rewrite (Permutation_length (fetch_all_Permutation t)).
    simpl. apply length_fmap.
Qed.

Lemma filter_idem {A : Type} (P : A -> Prop) `{!forall x, Decision (P x)}
    (l : list A) :
  filter P (filter P l) = filter P l.
Proof.
  induction l as [|x l IH]; [done|].
  destruct (decide (P x)).
  - rewrite (filter_cons_True P x l) by done.
    rewrite filter_cons_True by done. by f_equal.
  - by rewrite filter_cons_False by done.
Qed.

Lemma NoDup_ids_at_most_one (i : Z) (l : list expense) :
  NoDup (id <$> l) -> (length (filter (fun r => id r = i) l) <= 1)%nat.
Proof.
  induction l as [|r l IH]; [simpl; lia|].
  rewrite fmap_cons. intros [Hnotin Hnd]%NoDup_cons.
  destruct (decide (id r = i)) as [Heq|Hne].
  - rewrite filter_cons_True by done. simpl.
    rewrite filter_none; [simpl; lia|].
    intros r' Hr' Hid. apply Hnotin. rewrite Heq, <- Hid.
    by apply list_elem_of_fmap_2.
  - rewrite filter_cons_False by done. by apply IH.
Qed.

(** C10. [delete_expense i] and [update_expense i ...] leave the rows whose
    id differs from [i] exactly as they were, all fields and their order
    included, and do not move the counter; in a table the program has built
    at most one row has id [i], so at most one row is touched. *)
Theorem delete_update_frame (i : Z) (t : table) (d c ds : string) (a : real)
    (pm : string) :
  filter (fun r => id r <> i) (rows (delete_expense i t))
  = filter (fun r => id r <> i) (rows t)
  /\ filter (fun r => id r <> i) (rows (update_expense i d c ds a pm t))
     = filter (fun r => id r <> i) (rows t)
  /\ seq (delete_expense i t) = seq t
  /\ seq (update_expense i d c ds a pm t) = seq t
  /\ (forall ops : list op, run ops empty_table = Ok t ->
        (length (filter (fun r => id r = i) (rows t)) <= 1)%nat).
Proof.
  split; [|split; [|split; [done|split; [done|]]]].
  - simpl. apply filter_idem.
  - simpl. induction (rows t) as [|r l IH]; [done|].
    rewrite fmap_cons. case_decide as Hd.
    + rewrite !filter_cons_False by (simpl; intros ?; done). apply IH.
    + rewrite !filter_cons_True by done. by f_equal.
  - intros ops Hrun.
    assert (table_ok t) as [Hnd _] by (eapply run_ok; [apply empty_table_ok|done]).
    by apply NoDup_ids_at_most_one.
Qed.

(** *** The sidebar form *)

(** C9. A submitted form whose amount is at most zero shows the warning,
    makes no call to [add_expense], and hands back the table it was given
    (the first component of the result is [t] itself), so no listing shows
    a new record. *)
Theorem add_expense_form_rejects (d : pydate) (c ds : string) (a : real)
    (pm : string) (t : table) :
  amount_leb a zero = true ->
  exists evs,
    add_expense_form true d c ds a pm t = Ok (t, evs)
    /\ In (StWarning "Amount must be greater than 0.") evs
    /\ (forall d' c' ds' a' pm', ~ In (CallAddExpense d' c' ds' a' pm') evs).
Proof.
  intros Ha. unfold add_expense_form. rewrite Ha. eexists. split; [done|].
  split; [by left|].
  intros d' c' ds' a' pm' [?|[]]. done.
Qed.

(** *** The monthly trend *)








(** *** What the page does around the storage calls *)

Lemma init_db_idempotent (db : option table) :
  init_db (Some (init_db db)) = init_db db.
Proof. done. Qed.

(** For an empty listing the summary block computes nothing, the total
    included; it only shows its message. *)
Lemma summary_empty :
  summary [] = Some (NoExpenses "No expenses found. Add some using the sidebar.").
Proof. done. Qed.

(** A positive amount goes to [add_expense], with the date in ISO form and the
    description stripped. *)
Lemma add_expense_form_accepts (d : pydate) (c ds : string) (a : real)
    (pm : string) (t t' : table) :
  amount_leb a zero = false ->
  add_expense (isoformat d) c (py_strip ds) a pm t = Ok t' ->
  add_expense_form true d c ds a pm t
  = Ok (t', [CallAddExpense (isoformat d) c (py_strip ds) a pm;
             StSuccess "Expense added!"]).
Proof. intros Ha Hadd. unfold add_expense_form. by rewrite Ha, Hadd. Qed.

(** *** Sums of amounts *)

Lemma NoDup_fmap_eq {A B : Type} (f : A -> B) (l : list A) (x y : A) :
  NoDup (f <$> l) -> x ∈ l -> y ∈ l -> f x = f y -> x = y.
Proof.
  induction l as [|z l IH]; [by intros _ ?%elem_of_nil|].
  rewrite fmap_cons. intros [Hz Hnd]%NoDup_cons.
  intros [->|Hx]%elem_of_cons [->|Hy]%elem_of_cons Hf; [done| | |by apply IH].
  - destruct Hz. rewrite Hf. by apply list_elem_of_fmap_2.
  - destruct Hz. rewrite <- Hf. by apply list_elem_of_fmap_2.
Qed.

Lemma before_same_id (x y : expense) : before x y -> before y x -> id x = id y.
Proof.
  rewrite !before_spec. unfold date_desc_id_desc.
  intros [Hyx Hxy] [Hxy' Hyx'].
  assert (date_portion x = date_portion y) as Heq
    by (by apply sql_order_le_antisym).
  specialize (Hxy Heq). symmetry in Heq. specialize (Hyx' Heq). lia.
Qed.

(** With unique ids there is one way to sort a set of rows. *)
Lemma sorted_listing_unique (t : table) (l1 l2 : list expense) :
  NoDup (id <$> rows t) -> (forall x, x ∈ l1 -> x ∈ rows t) ->
  StronglySorted before l1 -> StronglySorted before l2 -> l1 ≡ₚ l2 -> l1 = l2.
Proof.
  intros Hnd Hsub H1 H2 Hperm.
  apply (StronglySorted_unique_strong before); [|done..].
  intros x y Hx Hy Hxy Hyx. rewrite <- Hperm in Hy.
  apply (NoDup_fmap_eq id (rows t)); [done|by apply Hsub..|].
  by apply before_same_id.
Qed.

Lemma fetch_expenses_StronglySorted (s e c : option string) (t : table) :
  StronglySorted before (fetch_expenses s e c t).
Proof. unfold fetch_expenses. apply StronglySorted_merge_sort; apply _. Qed.




(** *** Totals per category *)

(** The laws of the comparison of amounts that the position of the largest
    total rests on. *)
Hypothesis amount_leb_total :
  forall x y : real, amount_leb x y = true \/ amount_leb y x = true.
Hypothesis amount_leb_trans :
  forall x y z : real,
    amount_leb x y = true -> amount_leb y z = true -> amount_leb x z = true.

Global Instance amount_desc_total : Total amount_desc.
Proof using amount_leb_total.
  intros x y. unfold amount_desc.
  destruct (amount_leb_total x.2 y.2); [by right | by left].
Qed.

Global Instance amount_desc_trans : Transitive amount_desc.
Proof using amount_leb_trans.
  intros x y z Hxy Hyz. unfold amount_desc in *. by eapply amount_leb_trans.
Qed.







(** * Further properties *)

(** ** The table along a history *)

Lemma StronglySorted_fmap_filter {A B : Type} (R : relation B) (f : A -> B)
    (P : A -> Prop) `{!forall x, Decision (P x)} (l : list A) :
  StronglySorted R (f <$> l) -> StronglySorted R (f <$> filter P l).
Proof.
  induction l as [|x l IH]; [done|].
  rewrite fmap_cons. intros [Hx Hl]%StronglySorted_cons.
  rewrite filter_cons. case_decide; [|by apply IH].
  rewrite fmap_cons. apply StronglySorted_cons. split; [|by apply IH].
  apply Forall_forall. intros y (z & -> & [_ Hz]%list_elem_of_filter)%list_elem_of_fmap.
  apply (proj1 (Forall_forall _ _) Hx). by apply list_elem_of_fmap_2.
Qed.

Lemma apply_op_sorted (o : op) (t t' : table) :
  Forall (fun r => 1 <= id r <= seq t) (rows t) /\ 0 <= seq t
  /\ StronglySorted Z.lt (id <$> rows t) ->
  apply_op o t = Ok t' ->
  Forall (fun r => 1 <= id r <= seq t') (rows t') /\ 0 <= seq t'
  /\ StronglySorted Z.lt (id <$> rows t').
Proof.
  intros (Hb & Hs & Hsorted). destruct o; simpl.
  - intros [_ ->]%add_expense_Ok. simpl.
    pose proof (top_rowid_seq t) as Htop. split; [|split; [lia|]].
    + apply Forall_app. split.
      * eapply Forall_impl; [exact Hb|]. intros r Hr. simpl in *. lia.
      * apply Forall_singleton. simpl. lia.
    + rewrite fmap_app. apply StronglySorted_app. split; [|split; [done|]].
      * intros i j (r & -> & Hr)%list_elem_of_fmap Hj.
        apply list_elem_of_singleton in Hj. subst j. simpl.
        apply top_rowid_id in Hr. lia.
      * repeat constructor.
  - intros [= <-]. rewrite update_expense_ids. split; [|by split].
    simpl. apply Forall_fmap. eapply Forall_impl; [exact Hb|].
    intros r Hr. simpl. by case_decide.
  - intros [= <-]. simpl. split; [|split; [done|]].
    + apply Forall_forall. intros r [_ Hr]%list_elem_of_filter.
      by apply (proj1 (Forall_forall _ _) Hb).
    + by apply StronglySorted_fmap_filter.
Qed.

Lemma run_sorted (ops : list op) (t t' : table) :
  Forall (fun r => 1 <= id r <= seq t) (rows t) /\ 0 <= seq t
  /\ StronglySorted Z.lt (id <$> rows t) ->
  run ops t = Ok t' ->
  Forall (fun r => 1 <= id r <= seq t') (rows t') /\ 0 <= seq t'
  /\ StronglySorted Z.lt (id <$> rows t').
Proof.
  revert t. induction ops as [|o ops IH]; intros t Hinv.
  - by intros [= <-].
  - intros (t1 & Ho & Hrun)%run_cons. eapply IH; [|exact Hrun].
    by eapply apply_op_sorted.
Qed.

(** X1. Every table the program builds from the empty one keeps its ids
    unique, between 1 and the counter, and stored in strictly increasing
    order. *)
Theorem run_table_invariant (ops : list op) (t : table) :
  run ops empty_table = Ok t ->
  NoDup (id <$> rows t)
  /\ Forall (fun r => 1 <= id r <= seq t) (rows t)
  /\ StronglySorted Z.lt (id <$> rows t).
Proof.
  intros Hrun. split.
  - eapply run_ok; [apply empty_table_ok | exact Hrun].
  - destruct (run_sorted ops empty_table t) as (Hb & _ & Hs); [|done|done].
    simpl. split; [constructor|]. split; [done|constructor].
Qed.

Lemma run_seq_creates_from (ops : list op) (t t' : table) :
  table_ok t -> run ops t = Ok t' -> seq t' = seq t + creates ops.
Proof.
  revert t. induction ops as [|o ops IH]; intros t Hok.
  - intros [= <-]. simpl. lia.
  - intros (t1 & Ho & Hrun)%run_cons.
    rewrite (IH t1); [|by eapply apply_op_ok|done].
    destruct o; simpl in *.
    + apply add_expense_Ok in Ho as [_ ->]. simpl.
      rewrite table_ok_top_rowid by done. lia.
    + by injection Ho as <-.
    + by injection Ho as <-.
Qed.

(** X2. The counter of a table built from the empty one is the number of
    creates in its history: updates and deletes never move it, so the id of a
    deleted record is not handed out again. *)
Theorem run_seq_creates (ops : list op) (t : table) :
  run ops empty_table = Ok t -> seq t = creates ops.
Proof.
  intros Hrun.
  by rewrite (run_seq_creates_from ops empty_table t empty_table_ok Hrun).
Qed.

(** X3. After a create, a listing under any filters is the listing before
    together with the new record when it passes the filters, and the listing
    before otherwise. *)
Theorem add_expense_listing_filtered (d c ds : string) (a : real) (pm : string)
    (t t' : table) (s e cat : option string) :
  add_expense d c ds a pm t = Ok t' ->
  (selected (where_clause s e cat) (Expense (top_rowid t + 1) d c ds a pm) ->
   Permutation (fetch_expenses s e cat t')
     (Expense (top_rowid t + 1) d c ds a pm :: fetch_expenses s e cat t))
  /\ (~ selected (where_clause s e cat) (Expense (top_rowid t + 1) d c ds a pm) ->
      Permutation (fetch_expenses s e cat t') (fetch_expenses s e cat t)).
Proof.
  intros [_ ->]%add_expense_Ok.
  split; intros Hsel; rewrite !fetch_expenses_Permutation; simpl;
    rewrite filter_app.
  - rewrite filter_cons_True by done. rewrite filter_nil.
    by rewrite Permutation_app_comm.
  - rewrite filter_cons_False by done. rewrite filter_nil.
    by rewrite app_nil_r.
Qed.

(** X4. Deleting twice is deleting once, and deletes commute. *)
Theorem delete_expense_compose (i j : Z) (t : table) :
  delete_expense i (delete_expense i t) = delete_expense i t
  /\ delete_expense i (delete_expense j t) = delete_expense j (delete_expense i t).
Proof.
  unfold delete_expense. simpl. split; f_equal.
  - apply filter_idem.
  - rewrite !list_filter_filter. apply list_filter_iff. intros r. by split; intros [? ?].
Qed.

(** X5. Of two updates of the same id the later one wins, and updates of
    different ids commute. *)
Theorem update_expense_compose (i j : Z) (d1 c1 ds1 : string) (a1 : real)
    (pm1 : string) (d2 c2 ds2 : string) (a2 : real) (pm2 : string) (t : table) :
  update_expense i d2 c2 ds2 a2 pm2 (update_expense i d1 c1 ds1 a1 pm1 t)
  = update_expense i d2 c2 ds2 a2 pm2 t
  /\ (i <> j ->
      update_expense i d1 c1 ds1 a1 pm1 (update_expense j d2 c2 ds2 a2 pm2 t)
      = update_expense j d2 c2 ds2 a2 pm2 (update_expense i d1 c1 ds1 a1 pm1 t)).
Proof.
  unfold update_expense. simpl. split; [|intros Hij]; f_equal;
    rewrite <- !list_fmap_compose; apply list_fmap_ext; intros k r _; simpl.
  - destruct (decide (id r = i)) as [Hr|Hr]; simpl.
    + by rewrite decide_True.
    + by rewrite decide_False.
  - destruct (decide (id r = j)) as [Hj|Hj], (decide (id r = i)) as [Hi|Hi];
      simpl; repeat case_decide; try done; congruence.
Qed.

(** X6. An update followed by a delete of the same id is the delete alone; an
    update after the delete changes nothing, so a deleted record is not
    brought back; on different ids the two commute. *)
Theorem update_delete_compose (i j : Z) (d c ds : string) (a : real)
    (pm : string) (t : table) :
  delete_expense i (update_expense i d c ds a pm t) = delete_expense i t
  /\ update_expense i d c ds a pm (delete_expense i t) = delete_expense i t
  /\ (i <> j ->
      delete_expense i (update_expense j d c ds a pm t)
      = update_expense j d c ds a pm (delete_expense i t)).
Proof.
  split; [|split].
  - unfold delete_expense, update_expense. simpl. f_equal.
    induction (rows t) as [|r l IH]; [done|].
    rewrite fmap_cons. case_decide as Hr.
    + rewrite !filter_cons_False by (simpl; intros ?; done). apply IH.
    + rewrite !filter_cons_True by done. by f_equal.
  - apply update_expense_absent. simpl.
    intros r [? _]%list_elem_of_In%list_elem_of_filter. done.
  - intros Hij. unfold delete_expense, update_expense. simpl. f_equal.
    induction (rows t) as [|r l IH]; [done|].
    rewrite fmap_cons. destruct (decide (id r = i)) as [Hi|Hi].
    + rewrite (filter_cons_False _ r) by (intros ?; done).
      rewrite filter_cons_False; [done|].
      case_decide; simpl; intros ?; done.
    + rewrite (filter_cons_True _ r) by done.
      rewrite filter_cons_True by (case_decide; simpl; done).
      rewrite fmap_cons. by f_equal.
Qed.

(** X7. Once the counter has reached the largest rowid, a create fails, and
    it keeps failing after any further updates and deletes: deleting records
    does not make room. *)
Theorem add_expense_full_persists (ops : list op) (t t' : table)
    (d c ds : string) (a : real) (pm : string) :
  MAX_ROWID <= seq t -> run ops t = Ok t' ->
  add_expense d c ds a pm t' = Raise OperationalError.
Proof.
  intros Hfull Hseq%run_seq. unfold add_expense.
  pose proof (top_rowid_seq t'). rewrite decide_True; [done|lia].
Qed.

(** ** The order of a listing *)

Lemma StronglySorted_filter {A : Type} (R : relation A) (P : A -> Prop)
    `{!forall x, Decision (P x)} (l : list A) :
  StronglySorted R l -> StronglySorted R (filter P l).
Proof.
  induction 1 as [|x l Hl IH Hx]; [constructor|].
  rewrite filter_cons. case_decide; [|done].
  constructor; [done|]. apply Forall_forall.
  intros y [_ Hy]%list_elem_of_filter. by apply (proj1 (Forall_forall _ _) Hx).
Qed.

(** X8. In a table built by the program, a listing under filters is the
    unfiltered listing with the rows that fail the filters taken out, the
    others keeping their relative order. *)
Theorem fetch_expenses_filter_of_all (ops : list op) (t : table)
    (s e c : option string) :
  run ops empty_table = Ok t ->
  fetch_expenses s e c t
  = filter (selected (where_clause s e c)) (fetch_expenses None None None t).
Proof.
  intros Hrun.
  assert (table_ok t) as [Hnd _] by (eapply run_ok; [apply empty_table_ok|done]).
  apply (sorted_listing_unique t); [done| | | |].
  - by intros x [_ ?]%elem_of_fetch_expenses.
  - apply fetch_expenses_StronglySorted.
  - apply StronglySorted_filter, fetch_expenses_StronglySorted.
  - by rewrite fetch_expenses_Permutation, fetch_all_Permutation.
Qed.

(** X9. In a table built by the program, a listing after [delete_expense i]
    is the listing before with the record of id [i] taken out, the others
    keeping their order. *)
Theorem delete_expense_listing (ops : list op) (t : table) (i : Z)
    (s e c : option string) :
  run ops empty_table = Ok t ->
  fetch_expenses s e c (delete_expense i t)
  = filter (fun r => id r <> i) (fetch_expenses s e c t).
Proof.
  intros Hrun.
  assert (table_ok t) as [Hnd _] by (eapply run_ok; [apply empty_table_ok|done]).
  apply (sorted_listing_unique t); [done| | | |].
  - intros x [_ Hx]%elem_of_fetch_expenses. simpl in Hx.
    by apply list_elem_of_filter in Hx as [_ ?].
  - apply fetch_expenses_StronglySorted.
  - apply StronglySorted_filter, fetch_expenses_StronglySorted.
  - rewrite !fetch_expenses_Permutation. simpl.
    rewrite !list_filter_filter. apply reflexive_eq, list_filter_iff.
    intros r. by split; intros [? ?].
Qed.

Lemma StronglySorted_distinct {A B : Type} (R : relation A) (f : A -> B)
    (l : list A) :
  StronglySorted R l -> NoDup (f <$> l) ->
  StronglySorted (fun x y => R x y /\ f x <> f y) l.
Proof.
  induction 1 as [|x l Hl IH Hx]; [constructor|].
  rewrite fmap_cons. intros [Hnotin Hnd]%NoDup_cons.
  constructor; [by apply IH|]. apply Forall_forall. intros y Hy.
  split; [by apply (proj1 (Forall_forall _ _) Hx)|].
  intros Heq. apply Hnotin. rewrite Heq. by apply list_elem_of_fmap_2.
Qed.

(** X10. In a table built by the program no id occurs twice in a listing, and
    the order of a listing is strict: of two listed rows the earlier one has
    the later date or, on equal dates, the larger id. *)
Theorem fetch_expenses_strict (ops : list op) (t : table) (s e c : option string) :
  run ops empty_table = Ok t ->
  NoDup (id <$> fetch_expenses s e c t)
  /\ StronglySorted (fun x y => date_desc_id_desc x y /\ id x <> id y)
       (fetch_expenses s e c t).
Proof.
  intros Hrun.
  assert (table_ok t) as [Hnd _] by (eapply run_ok; [apply empty_table_ok|done]).
  assert (NoDup (id <$> fetch_expenses s e c t)) as Hids.
  { rewrite fetch_expenses_Permutation.
    eapply sublist_NoDup; [exact Hnd|]. apply fmap_sublist, sublist_filter. }
  split; [done|]. apply StronglySorted_distinct; [|done].
  apply (StronglySorted_impl before); [intros x y; apply before_spec|].
  apply fetch_expenses_StronglySorted.
Qed.

(** ** Bounds that no row can meet, rows without a date *)

(** X11. A bound whose text SQLite's [date] does not accept, or a lower bound
    that lies after the upper bound, gives the empty listing. *)
Theorem fetch_expenses_empty_range (A B a b : string) (s e c : option string)
    (t : table) :
  (A <> "" -> sqlite_date A = None ->
   fetch_expenses (Some A) e c t = [] /\ fetch_expenses s (Some A) c t = [])
  /\ (A <> "" -> B <> "" -> sqlite_date A = Some a -> sqlite_date B = Some b ->
      ~ String.le a b -> fetch_expenses (Some A) (Some B) c t = []).
Proof.
  split.
  - intros HA Hnull. split; unfold fetch_expenses; rewrite filter_none; try done.
    + intros r _ (Hs & _ & _)%selected_where_clause.
      destruct Hs as [?|(a' & Ha' & _)]; [done|]. by rewrite Hnull in Ha'.
    + intros r _ (_ & He & _)%selected_where_clause.
      destruct He as [?|(a' & Ha' & _)]; [done|]. by rewrite Hnull in Ha'.
  - intros HA HB Ha Hb Hab. unfold fetch_expenses. rewrite filter_none; [done|].
    intros r _ (Hs & He & _)%selected_where_clause.
    destruct Hs as [?|(a' & Ha' & Hs)]; [done|].
    destruct He as [?|(b' & Hb' & He)]; [done|].
    rewrite Ha in Ha'. rewrite Hb in Hb'. simplify_eq.
    unfold on_or_after, on_or_before in *.
    destruct (date_portion r) as [dd|]; [|done].
    apply Hab. by etrans.
Qed.

(** X12. A stored row whose date-portion is NULL is listed when no date bound
    is given and by no listing that has one. *)
Theorem fetch_expenses_null_date (r : expense) (t : table) :
  In r (rows t) -> date_portion r = None ->
  In r (fetch_expenses None None None t)
  /\ (forall A e c, A <> "" -> ~ In r (fetch_expenses (Some A) e c t))
  /\ (forall B s c, B <> "" -> ~ In r (fetch_expenses s (Some B) c t)).
Proof.
  intros Hr Hnull. split; [by apply in_fetch_all|]. split.
  - intros A e c HA [Hsel _]%list_elem_of_In%elem_of_fetch_expenses.
    apply selected_where_clause in Hsel as (Hs & _ & _).
    destruct Hs as [?|(a & _ & Hs)]; [done|].
    unfold on_or_after in Hs. by rewrite Hnull in Hs.
  - intros B s c HB [Hsel _]%list_elem_of_In%elem_of_fetch_expenses.
    apply selected_where_clause in Hsel as (_ & He & _).
    destruct He as [?|(b & _ & He)]; [done|].
    unfold on_or_before in He. by rewrite Hnull in He.
Qed.

(** ** The monthly trend and the top category *)






(** ** The forms *)

(** X19. A submitted form with an amount above zero, on a table whose ids
    have not reached the largest rowid, calls [add_expense] once with the
    date in ISO form and the description stripped, shows the success
    message, and the unfiltered listing gains exactly that record; a form
    that is not submitted does nothing. *)
Theorem add_expense_form_accepted (d : pydate) (c ds : string) (a : real)
    (pm : string) (t : table) :
  (amount_leb a zero = false -> top_rowid t < MAX_ROWID ->
   exists t',
     add_expense_form true d c ds a pm t
     = Ok (t', [CallAddExpense (isoformat d) c (py_strip ds) a pm;
                StSuccess "Expense added!"])
     /\ Permutation (fetch_expenses None None None t')
          (Expense (top_rowid t + 1) (isoformat d) c (py_strip ds) a pm
             :: fetch_expenses None None None t))
  /\ add_expense_form false d c ds a pm t = Ok (t, []).
Proof.
  split; [|done]. intros Ha Htop. eexists. split.
  - unfold add_expense_form. rewrite Ha.
    by rewrite add_expense_succeeds by done.
  - rewrite !fetch_all_Permutation. simpl. by rewrite Permutation_app_comm.
Qed.

Lemma isoformat_nonempty (d : pydate) : isoformat d <> "".
Proof. done. Qed.

(** X20. The filter bar in its initial state (no dates, category "All")
    lists every stored row; a chosen date is never dropped, so with both
    dates chosen the listing is exactly the rows whose date-portion lies
    between them and that pass the category box. *)
Theorem filter_bar_spec (d1 d2 : pydate) (a b cat : string) (t : table) :
  Permutation (filter_bar None None "All" t) (rows t)
  /\ (sqlite_date (isoformat d1) = Some a -> sqlite_date (isoformat d2) = Some b ->
      Permutation (filter_bar (Some d1) (Some d2) cat t)
        (filter (fun r => on_or_after a r /\ on_or_before b r
                          /\ category_passes (Some cat) r) (rows t))).
Proof.
  unfold filter_bar. split.
  - rewrite fetch_expenses_Permutation. apply reflexive_eq, filter_all.
    intros r _. apply selected_where_clause. simpl. split; [done|].
    split; [done|]. right. by left.
  - intros Ha Hb. simpl. rewrite fetch_expenses_Permutation.
    apply reflexive_eq, list_filter_iff. intros r.
    rewrite selected_where_clause. simpl. split.
    + intros ([?|(a' & Ha' & ?)] & [?|(b' & Hb' & ?)] & ?);
        try by (exfalso; eapply isoformat_nonempty).
      rewrite Ha in Ha'. rewrite Hb in Hb'. by simplify_eq.
    + intros (? & ? & ?). split; [right; by exists a|].
      split; [right; by exists b|done].
Qed.

Lemma list_index_Some (options : list string) (v : string) :
  In v options ->
  exists i, list_index v options = Some i /\ nth i options "" = v.
Proof.
  induction options as [|o options IH]; [done|]. simpl.
  destruct (decide (o = v)) as [->|Hne]; [by exists 0%nat|].
  intros [?|Hin]; [done|]. destruct (IH Hin) as (i & -> & Hi).
  by exists (S i).
Qed.

Lemma list_index_None (options : list string) (v : string) :
  ~ In v options -> list_index v options = None.
Proof.
  induction options as [|o options IH]; [done|]. simpl. intros Hnin.
  rewrite decide_False by (intros ->; apply Hnin; by left).
  rewrite IH; [done|]. intros ?. apply Hnin. by right.
Qed.

Lemma selectbox_index_or_0 (options : list string) (v : string) :
  (In v options -> selectbox_initial options (index_or_0 options v) = v)
  /\ (~ In v options ->
      selectbox_initial options (index_or_0 options v) = nth 0 options "").
Proof.
  unfold selectbox_initial, index_or_0. split.
  - intros (i & -> & Hi)%list_index_Some. done.
  - intros ->%list_index_None. done.
Qed.

(** X21. The edit widgets start from the stored amount and description; a
    stored category or payment method that is among the choices is shown as
    it is, any other falls back to the first choice ("Food", "Cash"), so the
    widgets always hold a value from the lists. *)
Theorem edit_defaults_spec (row : expense) (v : edit_values) :
  edit_defaults row = Some v ->
  new_amount v = amount row /\ new_desc v = description row
  /\ (In (category row) CATEGORIES -> new_category v = category row)
  /\ (~ In (category row) CATEGORIES -> new_category v = "Food")
  /\ (In (payment_method row) PAYMENT_METHODS ->
      new_method v = payment_method row)
  /\ (~ In (payment_method row) PAYMENT_METHODS -> new_method v = "Cash")
  /\ In (new_category v) CATEGORIES /\ In (new_method v) PAYMENT_METHODS.
Proof.
  unfold edit_defaults. destruct (to_datetime (tx_date row)) as [ts|]; [|done].
  simpl. destruct (amount_leb zero (amount row)); [|done].
  intros [= <-]. simpl.
  destruct (selectbox_index_or_0 CATEGORIES (category row)) as [Hc1 Hc2].
  destruct (selectbox_index_or_0 PAYMENT_METHODS (payment_method row))
    as [Hp1 Hp2].
  split; [done|]. split; [done|]. split; [done|]. split; [done|].
  split; [done|]. split; [done|]. split.
  - destruct (decide (In (category row) CATEGORIES)) as [Hin|Hnin].
    + by rewrite Hc1.
    + rewrite Hc2 by done. by left.
  - destruct (decide (In (payment_method row) PAYMENT_METHODS)) as [Hin|Hnin].
    + by rewrite Hp1.
    + rewrite Hp2 by done. by left.
Qed.

(** X22. Choosing one of the ids of the listing always finds a row: the first
    listed row with that id. *)
Theorem select_row_offered (df : list expense) (i : Z) :
  In i (id <$> df) ->
  exists row, select_row df i = Some row /\ id row = i /\ In row df.
Proof.
  intros (r & -> & Hr)%list_elem_of_In%list_elem_of_fmap.
  unfold select_row.
  destruct (filter (fun r0 => id r0 = id r) df) as [|row rest] eqn:Hf.
  - assert (r ∈ filter (fun r0 => id r0 = id r) df) as Hin
      by (by apply list_elem_of_filter).
    rewrite Hf in Hin. by apply elem_of_nil in Hin.
  - assert (row ∈ filter (fun r0 => id r0 = id r) df) as Hin
      by (rewrite Hf; left).
    apply list_elem_of_filter in Hin as [Hid Hin].
    exists row. by rewrite <- list_elem_of_In.
Qed.

Lemma update_expense_same (t : table) (row : expense) :
  NoDup (id <$> rows t) -> row ∈ rows t ->
  update_expense (id row) (tx_date row) (category row) (description row)
    (amount row) (payment_method row) t = t.
Proof.
  intros Hnd Hrow. destruct t as [l n]. unfold update_expense. simpl in *.
  f_equal. rewrite <- (list_fmap_id l) at 2. apply list_fmap_ext.
  intros k r Hk. apply list_elem_of_lookup_2 in Hk.
  case_decide as Hid; [|done].
  assert (r = row) as -> by (by apply (NoDup_fmap_eq id l)).
  by destruct row.
Qed.

(** X23. In a table built by the program, opening the edit form on a listed
    row whose category and payment method are among the choices and whose
    date text is the ISO form of its timestamp, and pressing "Update" without
    touching a widget, leaves the table as it was. *)
Theorem edit_update_unchanged (ops : list op) (t : table)
    (s e c : option string) (i : Z) (row : expense) (v : edit_values) :
  run ops empty_table = Ok t ->
  select_row (fetch_expenses s e c t) i = Some row ->
  edit_defaults row = Some v ->
  In (category row) CATEGORIES -> In (payment_method row) PAYMENT_METHODS ->
  isoformat (new_date v) = tx_date row ->
  edit_update i v t = t.
Proof.
  intros Hrun Hsel Hv Hcat Hpm Hdate.
  assert (table_ok t) as [Hnd _] by (eapply run_ok; [apply empty_table_ok|done]).
  unfold select_row in Hsel.
  assert (row ∈ filter (fun r => id r = i) (fetch_expenses s e c t)) as Hin.
  { destruct (filter _ _) as [|x l]; simplify_eq/=. left. }
  apply list_elem_of_filter in Hin as [<- [_ Hrow]%elem_of_fetch_expenses].
  unfold edit_defaults in Hv.
  destruct (to_datetime (tx_date row)) as [ts|]; [|done]. simpl in Hv.
  destruct (amount_leb zero (amount row)); [|done]. injection Hv as <-.
  unfold edit_update in *. simpl in *.
  rewrite Hdate.
  rewrite (proj1 (selectbox_index_or_0 CATEGORIES (category row)) Hcat).
  rewrite (proj1 (selectbox_index_or_0 PAYMENT_METHODS (payment_method row)) Hpm).
  by apply update_expense_same.
Qed.

(** X24. "Update" writes whatever the widgets hold: the unfiltered listing
    afterwards shows the row with the new values, whatever its amount, also an
    amount of at most zero, which the add form refuses. *)
Theorem edit_update_fetch (t : table) (row : expense) (v : edit_values) :
  In row (rows t) ->
  In (Expense (id row) (isoformat (new_date v)) (new_category v) (new_desc v)
        (new_amount v) (new_method v))
     (fetch_expenses None None None (edit_update (id row) v t)).
Proof.
  intros Hrow. apply in_fetch_all, list_elem_of_In. unfold edit_update. simpl.
  apply list_elem_of_fmap. exists row. rewrite decide_True by done.
  split; [done | by apply list_elem_of_In].
Qed.

End Tracker.

(** ** ISO dates as texts *)

Lemma digit_compare (a b : Z) :
  Ascii.compare (digit a) (digit b) = (a `mod` 10 ?= b `mod` 10).
Proof.
  unfold digit.
  pose proof (Z.mod_pos_bound a 10 eq_refl) as Ha.
  pose proof (Z.mod_pos_bound b 10 eq_refl) as Hb.
  set (x := a `mod` 10) in *. set (y := b `mod` 10) in *. clearbody x y.
  assert (x = 0 \/ x = 1 \/ x = 2 \/ x = 3 \/ x = 4 \/ x = 5 \/ x = 6
          \/ x = 7 \/ x = 8 \/ x = 9) as Hx by lia.
  assert (y = 0 \/ y = 1 \/ y = 2 \/ y = 3 \/ y = 4 \/ y = 5 \/ y = 6
          \/ y = 7 \/ y = 8 \/ y = 9) as Hy by lia.
  clear Ha Hb.
  repeat (destruct Hx as [->|Hx]); try subst x;
    repeat (destruct Hy as [->|Hy]); try subst y; reflexivity.
Qed.

Lemma two_digits (n : Z) :
  0 <= n < 100 -> (n `div` 10) `mod` 10 * 10 + n `mod` 10 = n.
Proof.
  intros Hn. assert ((n `div` 10) `mod` 10 = n `div` 10) as ->.
  { apply Z.mod_small. split; [apply Z.div_pos; lia|].
    apply Z.div_lt_upper_bound; lia. }
  pose proof (Z.div_mod n 10). lia.
Qed.

Lemma four_digits (y : Z) :
  0 <= y < 10000 ->
  (((y `div` 1000) `mod` 10 * 10 + (y `div` 100) `mod` 10) * 10
   + (y `div` 10) `mod` 10) * 10 + y `mod` 10 = y.
Proof.
  intros Hy.
  assert (y `div` 10 = 10 * (y `div` 100) + (y `div` 10) `mod` 10) as H1.
  { assert (y `div` 100 = (y `div` 10) `div` 10) as ->
      by (by rewrite Z.div_div by lia).
    pose proof (Z.div_mod (y `div` 10) 10). lia. }
  assert (y `div` 100 = 10 * (y `div` 1000) + (y `div` 100) `mod` 10) as H2.
  { assert (y `div` 1000 = (y `div` 100) `div` 10) as ->
      by (by rewrite Z.div_div by lia).
    pose proof (Z.div_mod (y `div` 100) 10). lia. }
  assert ((y `div` 1000) `mod` 10 = y `div` 1000) as ->.
  { apply Z.mod_small. split; [apply Z.div_pos; lia|].
    apply Z.div_lt_upper_bound; lia. }
  pose proof (Z.div_mod y 10). lia.
Qed.

Lemma compare_pad2 (m n : Z) (s s' : string) :
  0 <= m < 100 -> 0 <= n < 100 ->
  String.compare (pad2 m +:+ s) (pad2 n +:+ s')
  = match m ?= n with
    | Eq => String.compare s s'
    | Lt => Lt
    | Gt => Gt
    end.
Proof.
  intros Hm Hn.
  change (pad2 m +:+ s) with (String (digit (m `div` 10)) (String (digit m) s)).
  change (pad2 n +:+ s') with (String (digit (n `div` 10)) (String (digit n) s')).
  cbn [String.compare]. rewrite !digit_compare.
  pose proof (two_digits m Hm) as Em. pose proof (two_digits n Hn) as En.
  pose proof (Z.mod_pos_bound (m `div` 10) 10 eq_refl).
  pose proof (Z.mod_pos_bound m 10 eq_refl).
  pose proof (Z.mod_pos_bound (n `div` 10) 10 eq_refl).
  pose proof (Z.mod_pos_bound n 10 eq_refl).
  set (a1 := (m `div` 10) `mod` 10) in *. set (a0 := m `mod` 10) in *.
  set (b1 := (n `div` 10) `mod` 10) in *. set (b0 := n `mod` 10) in *.
  clearbody a1 a0 b1 b0.
  destruct (Z.compare_spec a1 b1); destruct (Z.compare_spec a0 b0);
    destruct (Z.compare_spec m n); try reflexivity; exfalso; lia.
Qed.

Lemma compare_pad4 (m n : Z) (s s' : string) :
  0 <= m < 10000 -> 0 <= n < 10000 ->
  String.compare (pad4 m +:+ s) (pad4 n +:+ s')
  = match m ?= n with
    | Eq => String.compare s s'
    | Lt => Lt
    | Gt => Gt
    end.
Proof.
  intros Hm Hn.
  change (pad4 m +:+ s)
    with (String (digit (m `div` 1000)) (String (digit (m `div` 100))
            (String (digit (m `div` 10)) (String (digit m) s)))).
  change (pad4 n +:+ s')
    with (String (digit (n `div` 1000)) (String (digit (n `div` 100))
            (String (digit (n `div` 10)) (String (digit n) s')))).
  cbn [String.compare]. rewrite !digit_compare.
  pose proof (four_digits m Hm) as Em. pose proof (four_digits n Hn) as En.
  pose proof (Z.mod_pos_bound (m `div` 1000) 10 eq_refl).
  pose proof (Z.mod_pos_bound (m `div` 100) 10 eq_refl).
  pose proof (Z.mod_pos_bound (m `div` 10) 10 eq_refl).
  pose proof (Z.mod_pos_bound m 10 eq_refl).
  pose proof (Z.mod_pos_bound (n `div` 1000) 10 eq_refl).
  pose proof (Z.mod_pos_bound (n `div` 100) 10 eq_refl).
  pose proof (Z.mod_pos_bound (n `div` 10) 10 eq_refl).
  pose proof (Z.mod_pos_bound n 10 eq_refl).
  set (a3 := (m `div` 1000) `mod` 10) in *.
  set (a2 := (m `div` 100) `mod` 10) in *.
  set (a1 := (m `div` 10) `mod` 10) in *. set (a0 := m `mod` 10) in *.
  set (b3 := (n `div` 1000) `mod` 10) in *.
  set (b2 := (n `div` 100) `mod` 10) in *.
  set (b1 := (n `div` 10) `mod` 10) in *. set (b0 := n `mod` 10) in *.
  clearbody a3 a2 a1 a0 b3 b2 b1 b0.
  destruct (Z.compare_spec a3 b3); [|destruct (Z.compare_spec m n);
    try reflexivity; exfalso; lia..].
  destruct (Z.compare_spec a2 b2); [|destruct (Z.compare_spec m n);
    try reflexivity; exfalso; lia..].
  destruct (Z.compare_spec a1 b1); [|destruct (Z.compare_spec m n);
    try reflexivity; exfalso; lia..].
  destruct (Z.compare_spec a0 b0); destruct (Z.compare_spec m n);
    try reflexivity; exfalso; lia.
Qed.

Lemma isoformat_compare (d1 d2 : pydate) :
  0 <= py_year d1 < 10000 -> 0 <= py_year d2 < 10000 ->
  0 <= py_month d1 < 100 -> 0 <= py_month d2 < 100 ->
  0 <= py_day d1 < 100 -> 0 <= py_day d2 < 100 ->
  String.compare (isoformat d1) (isoformat d2)
  = match py_year d1 ?= py_year d2 with
    | Eq => match py_month d1 ?= py_month d2 with
            | Eq => py_day d1 ?= py_day d2
            | Lt => Lt
            | Gt => Gt
            end
    | Lt => Lt
    | Gt => Gt
    end.
Proof.
  intros Hy1 Hy2 Hm1 Hm2 Hd1 Hd2. unfold isoformat.
  rewrite compare_pad4 by done.
  destruct (py_year d1 ?= py_year d2); [|done..].
  change (String.compare ("-" +:+ ?x) ("-" +:+ ?y)) with (String.compare x y).
  rewrite compare_pad2 by done.
  destruct (py_month d1 ?= py_month d2); [|done..].
  change (String.compare ("-" +:+ ?x) ("-" +:+ ?y)) with (String.compare x y).
  change (pad2 (py_day d1)) with (pad2 (py_day d1) +:+ "").
  change (pad2 (py_day d2)) with (pad2 (py_day d2) +:+ "").
  rewrite compare_pad2 by done.
  by destruct (py_day d1 ?= py_day d2).
Qed.

Lemma days_in_month_le_31 (y m : Z) : days_in_month y m <= 31.
Proof.
  unfold days_in_month.
  repeat match goal with |- context [if ?b then _ else _] => destruct b end; lia.
Qed.

Lemma isoformat_le_date_le (d1 d2 : pydate) :
  valid_date d1 -> valid_date d2 ->
  String.le (isoformat d1) (isoformat d2) <-> date_le d1 d2.
Proof.
  intros (Hy1 & Hm1 & Hd1) (Hy2 & Hm2 & Hd2).
  pose proof (days_in_month_le_31 (py_year d1) (py_month d1)).
  pose proof (days_in_month_le_31 (py_year d2) (py_month d2)).
  unfold String.le, String.leb, date_le.
  rewrite isoformat_compare by lia.
  destruct (Z.compare_spec (py_year d1) (py_year d2));
    destruct (Z.compare_spec (py_month d1) (py_month d2));
    destruct (Z.compare_spec (py_day d1) (py_day d2));
    simpl; split; intros; try done; lia.
Qed.

(** X25. The texts the forms write for two dates compare, byte by byte as
    SQLite compares them, the way the dates compare on the calendar; so
    different dates give different texts. *)
Theorem isoformat_le (d1 d2 : pydate) :
  valid_date d1 -> valid_date d2 ->
  (String.le (isoformat d1) (isoformat d2) <-> date_le d1 d2)
  /\ (isoformat d1 = isoformat d2 -> d1 = d2).
Proof.
  intros Hv1 Hv2. split; [by apply isoformat_le_date_le|].
  destruct Hv1 as (Hy1 & Hm1 & Hd1), Hv2 as (Hy2 & Hm2 & Hd2).
  pose proof (days_in_month_le_31 (py_year d1) (py_month d1)).
  pose proof (days_in_month_le_31 (py_year d2) (py_month d2)).
  intros Heq. pose proof (isoformat_compare d1 d2) as Hcmp.
  rewrite Heq, string_compare_refl in Hcmp.
  specialize (Hcmp ltac:(lia) ltac:(lia) ltac:(lia) ltac:(lia) ltac:(lia)
                ltac:(lia)).
  destruct d1 as [y1 m1 dd1], d2 as [y2 m2 dd2]. simpl in *.
  destruct (Z.compare_spec y1 y2); [|done..].
  destruct (Z.compare_spec m1 m2); [|done..].
  destruct (Z.compare_spec dd1 dd2); [|done..]. by subst.
Qed.

Lemma digit_value_digit (n : Z) : digit_value (digit n) = Some (n `mod` 10).
Proof.
  unfold digit.
  pose proof (Z.mod_pos_bound n 10 eq_refl) as Hn.
  set (x := n `mod` 10) in *. clearbody x.
  assert (x = 0 \/ x = 1 \/ x = 2 \/ x = 3 \/ x = 4 \/ x = 5 \/ x = 6
          \/ x = 7 \/ x = 8 \/ x = 9) as Hx by lia.
  clear Hn. repeat (destruct Hx as [->|Hx]); try subst x; reflexivity.
Qed.

Lemma iso_fields_chars (c1 c2 c3 c4 c5 c6 c7 c8 : ascii)
    (v1 v2 v3 v4 v5 v6 v7 v8 : Z) :
  digit_value c1 = Some v1 -> digit_value c2 = Some v2 ->
  digit_value c3 = Some v3 -> digit_value c4 = Some v4 ->
  digit_value c5 = Some v5 -> digit_value c6 = Some v6 ->
  digit_value c7 = Some v7 -> digit_value c8 = Some v8 ->
  iso_fields (String c1 (String c2 (String c3 (String c4 (String "-"
    (String c5 (String c6 (String "-" (String c7 (String c8 ""))))))))))
  = if (1 <=? v5 * 10 + v6) && (v5 * 10 + v6 <=? 12) && (1 <=? v7 * 10 + v8)
       && (v7 * 10 + v8 <=? days_in_month (((v1 * 10 + v2) * 10 + v3) * 10 + v4)
                              (v5 * 10 + v6))
    then Some (mkTimestamp (((v1 * 10 + v2) * 10 + v3) * 10 + v4)
                 (v5 * 10 + v6) (v7 * 10 + v8))
    else None.
Proof.
  intros H1 H2 H3 H4 H5 H6 H7 H8.
  cbn [iso_fields digits_value].
  rewrite H1, H2, H3, H4, H5, H6, H7, H8. reflexivity.
Qed.

Lemma isoformat_chars (y m dd : Z) :
  isoformat (mkDate y m dd)
  = String (digit (y `div` 1000)) (String (digit (y `div` 100))
      (String (digit (y `div` 10)) (String (digit y) (String "-"
        (String (digit (m `div` 10)) (String (digit m) (String "-"
          (String (digit (dd `div` 10)) (String (digit dd) ""))))))))).
Proof. reflexivity. Qed.

(** The ISO reading takes the text of a date back to its fields. *)
Lemma iso_fields_isoformat (d : pydate) :
  valid_date d ->
  iso_fields (isoformat d)
  = Some (mkTimestamp (py_year d) (py_month d) (py_day d)).
Proof.
  intros (Hy & Hm & Hd). destruct d as [y m dd].
  cbn [py_year py_month py_day] in *.
  pose proof (days_in_month_le_31 y m).
  rewrite isoformat_chars.
  rewrite (iso_fields_chars _ _ _ _ _ _ _ _ _ _ _ _ _ _ _ _
             (digit_value_digit _) (digit_value_digit _) (digit_value_digit _)
             (digit_value_digit _) (digit_value_digit _) (digit_value_digit _)
             (digit_value_digit _) (digit_value_digit _)).
  rewrite four_digits by lia. rewrite !two_digits by lia.
  rewrite !(proj2 (Z.leb_le _ _)) by lia. reflexivity.
Qed.

Lemma iso_sqlite_date_isoformat (d : pydate) :
  valid_date d -> iso_sqlite_date (isoformat d) = Some (isoformat d).
Proof.
  intros Hd. unfold iso_sqlite_date. by rewrite iso_fields_isoformat.
Qed.

(** X26. Where SQLite's [date] returns the ISO text of a date unchanged, the
    date range of the filter bar is the calendar range: a stored row written
    for the date [dr] is listed between the chosen dates [d1] and [d2]
    exactly when [d1 <= dr <= d2] on the calendar and it passes the category
    box. *)
Theorem filter_bar_calendar {real : Type} (sqlite_date : string -> option string)
    (d1 d2 dr : pydate) (cat : string) (r : @expense real) (t : @table real) :
  (forall d, valid_date d -> sqlite_date (isoformat d) = Some (isoformat d)) ->
  valid_date d1 -> valid_date d2 -> valid_date dr ->
  tx_date r = isoformat dr ->
  In r (filter_bar sqlite_date (Some d1) (Some d2) cat t)
  <-> In r (rows t) /\ date_le d1 dr /\ date_le dr d2
      /\ category_passes (Some cat) r.
Proof.
  intros Hdate Hv1 Hv2 Hvr Hr. unfold filter_bar.
  change (isoformat <$> Some d1) with (Some (isoformat d1)).
  change (isoformat <$> Some d2) with (Some (isoformat d2)).
  rewrite <- !list_elem_of_In, elem_of_fetch_expenses, selected_where_clause.
  rewrite <- (isoformat_le_date_le d1 dr Hv1 Hvr).
  rewrite <- (isoformat_le_date_le dr d2 Hvr Hv2).
  assert (date_portion sqlite_date r = Some (isoformat dr)) as Hdp.
  { unfold date_portion. rewrite Hr. apply Hdate. exact Hvr. }
  unfold start_passes, end_passes, on_or_after, on_or_before. rewrite Hdp.
  pose proof (Hdate d1 Hv1) as E1. pose proof (Hdate d2 Hv2) as E2.
  split.
  - intros ((Hs & He & Hc) & Hin).
    destruct Hs as [Hs|(a & Ha & Hs)];
      [exfalso; exact (isoformat_nonempty d1 Hs)|].
    destruct He as [He|(b & Hb & He)];
      [exfalso; exact (isoformat_nonempty d2 He)|].
    rewrite E1 in Ha. rewrite E2 in Hb.
    injection Ha as <-. injection Hb as <-.
    split; [exact Hin|]. split; [exact Hs|]. split; [exact He|exact Hc].
  - intros (Hin & Hs & He & Hc). split; [|exact Hin].
    split; [right; exists (isoformat d1); split; [exact E1|exact Hs]|].
    split; [right; exists (isoformat d2); split; [exact E2|exact He]|exact Hc].
Qed.


(** * The theorems at concrete tables

    The statements about totals are taken at binary64, the arithmetic of the
    REAL column; elsewhere amounts are integers, on which nothing depends.
    The library functions are the ISO readings above, and the tables are
    built by running the program's own writes. *)

(** The scenario of the specification: three creates, then the January
    listing, the monthly trend and the category table. *)
Example scenario_january :
  exists t : table,
    run [OpAdd "2024-01-05" "Food" "" 100 "UPI";
         OpAdd "2024-01-20" "Transport" "" 50 "Card";
         OpAdd "2024-02-01" "Food" "" 25 "Cash"] empty_table = Ok t
    /\ fetch_expenses iso_sqlite_date (Some "2024-01-01") (Some "2024-01-31")
         (Some "All") t
       = [Expense 2 "2024-01-20" "Transport" "" 50 "Card";
          Expense 1 "2024-01-05" "Food" "" 100 "UPI"]
    /\ total_spend 0 Z.add
         (fetch_expenses iso_sqlite_date (Some "2024-01-01") (Some "2024-01-31")
            (Some "All") t) = 150
    /\ by_month 0 Z.add iso_to_datetime (fetch_expenses iso_sqlite_date None None None t)
       = Some [(mkTimestamp 2024 1 1, 150); (mkTimestamp 2024 2 1, 25)]
    /\ by_category 0 Z.add Z.leb (fetch_expenses iso_sqlite_date None None None t)
       = [("Food", 125); ("Transport", 50)].
Proof. eexists. split; [reflexivity|]. repeat split; vm_compute; reflexivity. Qed.

(** An id that was never handed out is not protected by a delete: the next
    create may take it. *)
Example delete_unassigned_then_create :
  run [OpDelete 1; OpAdd "2024-01-05" "Food" "" 100 "UPI"] (@empty_table Z)
  = Ok (Table [Expense 1 "2024-01-05" "Food" "" 100 "UPI"] 1).
Proof. reflexivity. Qed.



Lemma add_expense_fetch_witness :
  exists t0 t : table,
    run [OpAdd "2024-01-05" "Food" "" 100 "UPI";
         OpAdd "2024-01-20" "Transport" "" 50 "Card"] empty_table = Ok t0
    /\ run [OpDelete 2] t0 = Ok t
    /\ seq t < MAX_ROWID
    /\ exists t' i,
         add_expense "2024-02-01" "Food" "lunch" 25 "Cash" t = Ok t'
         /\ i = seq t + 1
         /\ Permutation (fetch_expenses iso_sqlite_date None None None t')
              (Expense i "2024-02-01" "Food" "lunch" 25 "Cash"
                 :: fetch_expenses iso_sqlite_date None None None t)
         /\ length (fetch_expenses iso_sqlite_date None None None t')
            = S (length (fetch_expenses iso_sqlite_date None None None t))
         /\ (forall r, In r (rows t0) -> id r <> i)
         /\ (forall r, In r (rows t) -> id r <> i)
         /\ (forall r, In r (fetch_expenses iso_sqlite_date None None None t') ->
               id r = i -> r = Expense i "2024-02-01" "Food" "lunch" 25 "Cash").
Proof.
  eexists _, _. split; [reflexivity|]. split; [reflexivity|].
  split; [vm_compute; reflexivity|].
  apply (add_expense_fetch iso_sqlite_date
           [OpAdd "2024-01-05" "Food" "" 100 "UPI";
            OpAdd "2024-01-20" "Transport" "" 50 "Card"]
           [OpDelete 2]);
    [reflexivity | reflexivity | vm_compute; reflexivity].
Defined.

Lemma delete_expense_fetch_witness :
  exists t0 t t2 : table,
    run [OpAdd "2024-01-05" "Food" "" 100 "UPI";
         OpAdd "2024-01-20" "Transport" "" 50 "Card"] empty_table = Ok t0
    /\ (exists r0, In r0 (rows t0) /\ id r0 = 1)
    /\ run [OpUpdate 2 "2024-01-21" "Transport" "bus" 60 "Card"] t0 = Ok t
    /\ run [OpAdd "2024-02-01" "Food" "" 25 "Cash";
            OpAdd "2024-02-02" "Rent" "" 900 "NetBanking"]
         (delete_expense 1 t) = Ok t2
    /\ (forall s e c r,
          In r (fetch_expenses iso_sqlite_date s e c t2) -> id r <> 1)
    /\ (forall r, In r (rows t) -> id r <> 7)
    /\ delete_expense 7 t = t.
Proof.
  eexists _, _, _. split; [reflexivity|].
  split; [eexists; split; [left; reflexivity | reflexivity]|].
  split; [reflexivity|]. split; [reflexivity|].
  assert (forall r : @expense Z,
            In r [Expense 1 "2024-01-05" "Food" "" 100 "UPI";
                  Expense 2 "2024-01-21" "Transport" "bus" 60 "Card"] ->
            id r <> 7) as Habs.
  { intros r [<-|[<-|[]]]; simpl; lia. }
  split; [|split; [exact Habs|]].
  - eapply (proj1 (proj2 (delete_expense_fetch iso_sqlite_date))
             [OpAdd "2024-01-05" "Food" "" 100 "UPI";
              OpAdd "2024-01-20" "Transport" "" 50 "Card"]
             [OpUpdate 2 "2024-01-21" "Transport" "bus" 60 "Card"]
             [OpAdd "2024-02-01" "Food" "" 25 "Cash";
              OpAdd "2024-02-02" "Rent" "" 900 "NetBanking"]
             _ _ _ 1);
      [reflexivity
      | eexists; split; [left; reflexivity | reflexivity]
      | reflexivity | reflexivity].
  - exact (proj1 (proj2 (proj2 (delete_expense_fetch iso_sqlite_date)) 7
                    (Table [Expense 1 "2024-01-05" "Food" "" 100 "UPI";
                            Expense 2 "2024-01-21" "Transport" "bus" 60 "Card"] 2)
                    Habs)).
Defined.

Lemma update_expense_fetch_witness :
  In (Expense 1 "2024-01-05" "Food" "" 100 "UPI")
     (rows (Table [Expense 1 "2024-01-05" "Food" "" 100 "UPI";
                   Expense 2 "2024-01-20" "Transport" "" 50 "Card"] 2))
  /\ In (Expense 1 "2024-01-06" "Rent" "flat" 900 "Card")
       (fetch_expenses iso_sqlite_date None None None
          (update_expense 1 "2024-01-06" "Rent" "flat" 900 "Card"
             (Table [Expense 1 "2024-01-05" "Food" "" 100 "UPI";
                     Expense 2 "2024-01-20" "Transport" "" 50 "Card"] 2)))
  /\ (forall r,
        In r (rows (Table [Expense 1 "2024-01-05" "Food" "" 100 "UPI";
                           Expense 2 "2024-01-20" "Transport" "" 50 "Card"] 2)) ->
        id r <> 9)
  /\ update_expense 9 "2024-01-06" "Rent" "flat" 900 "Card"
       (Table [Expense 1 "2024-01-05" "Food" "" 100 "UPI";
               Expense 2 "2024-01-20" "Transport" "" 50 "Card"] 2)
     = Table [Expense 1 "2024-01-05" "Food" "" 100 "UPI";
              Expense 2 "2024-01-20" "Transport" "" 50 "Card"] 2.
Proof.
  assert (forall r : @expense Z,
            In r [Expense 1 "2024-01-05" "Food" "" 100 "UPI";
                  Expense 2 "2024-01-20" "Transport" "" 50 "Card"] ->
            id r <> 9) as Habs.
  { intros r [<-|[<-|[]]]; simpl; lia. }
  split; [left; reflexivity|]. split; [|split; [exact Habs|]].
  - exact (proj1 (proj1 (update_expense_fetch iso_sqlite_date)
             (Table [Expense 1 "2024-01-05" "Food" "" 100 "UPI";
                     Expense 2 "2024-01-20" "Transport" "" 50 "Card"] 2)
             (Expense 1 "2024-01-05" "Food" "" 100 "UPI")
             "2024-01-06" "Rent" "flat" 900 "Card"
             (or_introl eq_refl))).
  - exact (proj2 (update_expense_fetch iso_sqlite_date) 9
             (Table [Expense 1 "2024-01-05" "Food" "" 100 "UPI";
                     Expense 2 "2024-01-20" "Transport" "" 50 "Card"] 2)
             "2024-01-06" "Rent" "flat" 900 "Card" Habs).
Defined.

Lemma fetch_expenses_date_range_witness :
  exists t : table,
    run [OpAdd "2024-01-05" "Food" "" 100 "UPI";
         OpAdd "2024-01-20" "Transport" "" 50 "Card";
         OpAdd "2024-02-01" "Food" "" 25 "Cash"] empty_table = Ok t
    /\ "2024-01-01" <> "" /\ "2024-01-31" <> ""
    /\ iso_sqlite_date "2024-01-01" = Some "2024-01-01"
    /\ iso_sqlite_date "2024-01-31" = Some "2024-01-31"
    /\ Permutation
         (fetch_expenses iso_sqlite_date (Some "2024-01-01") (Some "2024-01-31")
            None t)
         (filter (fun r => on_or_after iso_sqlite_date "2024-01-01" r
                           /\ on_or_before iso_sqlite_date "2024-01-31" r
                           /\ category_passes None r) (rows t)).
Proof.
  eexists. split; [reflexivity|].
  split; [discriminate|]. split; [discriminate|].
  split; [reflexivity|]. split; [reflexivity|].
  apply (fetch_expenses_date_range iso_sqlite_date
           "2024-01-01" "2024-01-31" "2024-01-01" "2024-01-31");
    [discriminate | discriminate | reflexivity | reflexivity].
Defined.

Lemma fetch_expenses_sorted_witness :
  (forall r,
      In r (rows (Table [Expense 1 "2024-01-05" "Food" "" 100 "UPI";
                         Expense 2 "2024-01-20" "Transport" "" 50 "Card"] 2)) ->
      ~ selected iso_sqlite_date (where_clause None None (Some "Rent")) r)
  /\ fetch_expenses iso_sqlite_date None None (Some "Rent")
       (Table [Expense 1 "2024-01-05" "Food" "" 100 "UPI";
               Expense 2 "2024-01-20" "Transport" "" 50 "Card"] 2) = []
  /\ StronglySorted (date_desc_id_desc iso_sqlite_date)
       (fetch_expenses iso_sqlite_date None None None
          (Table [Expense 1 "2024-01-05" "Food" "" 100 "UPI";
                  Expense 2 "2024-01-20" "Transport" "" 50 "Card"] 2)).
Proof.
  assert (forall r : @expense Z,
            In r [Expense 1 "2024-01-05" "Food" "" 100 "UPI";
                  Expense 2 "2024-01-20" "Transport" "" 50 "Card"] ->
            ~ selected iso_sqlite_date (where_clause None None (Some "Rent")) r)
    as Hnone.
  { intros r [<-|[<-|[]]] Hsel; vm_compute in Hsel; discriminate Hsel. }
  split; [exact Hnone|]. split.
  - exact (proj2 (fetch_expenses_sorted iso_sqlite_date None None (Some "Rent")
                    (Table [Expense 1 "2024-01-05" "Food" "" 100 "UPI";
                            Expense 2 "2024-01-20" "Transport" "" 50 "Card"] 2))
             Hnone).
  - exact (proj1 (fetch_expenses_sorted iso_sqlite_date None None None _)).
Defined.

(** *** Totals at binary64

    The REAL column at its own arithmetic: amounts are binary64 numbers,
    [add] is their rounded addition and [amount_leb] their comparison. *)





Lemma add_expense_form_rejects_witness :
  (0 <=? 0) = true
  /\ exists evs,
       add_expense_form 0 Z.leb ascii_strip true (mkDate 2024 2 9) "Food" " tea "
         0 "UPI" (Table [Expense 1 "2024-01-05" "Food" "" 100 "UPI"] 1)
       = Ok (Table [Expense 1 "2024-01-05" "Food" "" 100 "UPI"] 1, evs)
       /\ In (StWarning "Amount must be greater than 0.") evs
       /\ (forall d' c' ds' a' pm', ~ In (CallAddExpense d' c' ds' a' pm') evs).
Proof.
  split; [reflexivity|].
  apply (add_expense_form_rejects 0 Z.leb ascii_strip). reflexivity.
Defined.

Lemma delete_update_frame_witness :
  exists t : table,
    run [OpAdd "2024-01-05" "Food" "" 100 "UPI";
         OpAdd "2024-01-20" "Transport" "" 50 "Card"] empty_table = Ok t
    /\ filter (fun r => id r <> 1) (rows (delete_expense 1 t))
       = filter (fun r => id r <> 1) (rows t)
    /\ filter (fun r => id r <> 1)
         (rows (update_expense 1 "2024-01-06" "Rent" "flat" 900 "Card" t))
       = filter (fun r => id r <> 1) (rows t)
    /\ (length (filter (fun r => id r = 1%Z) (rows t)) <= 1)%nat.
Proof.
  eexists. split; [reflexivity|].
  pose proof (delete_update_frame 1
                (Table [Expense 1 "2024-01-05" "Food" "" 100 "UPI";
                        Expense 2 "2024-01-20" "Transport" "" 50 "Card"] 2)
                "2024-01-06" "Rent" "flat" 900 "Card")
    as (Hdel & Hupd & _ & _ & Hone).
  split; [exact Hdel|]. split; [exact Hupd|].
  apply (Hone [OpAdd "2024-01-05" "Food" "" 100 "UPI";
               OpAdd "2024-01-20" "Transport" "" 50 "Card"]).
  reflexivity.
Defined.

(** ** The further properties at concrete tables *)

Lemma run_table_invariant_witness :
  exists t : table,
    run [OpAdd "2024-01-05" "Food" "" 100 "UPI";
         OpAdd "2024-01-20" "Transport" "" 50 "Card";
         OpDelete 1;
         OpAdd "2024-02-01" "Food" "" 25 "Cash"] empty_table = Ok t
    /\ NoDup (id <$> rows t)
    /\ Forall (fun r => 1 <= id r <= seq t) (rows t)
    /\ StronglySorted Z.lt (id <$> rows t).
Proof.
  eexists. split; [reflexivity|].
  apply (run_table_invariant
           [OpAdd "2024-01-05" "Food" "" 100 "UPI";
            OpAdd "2024-01-20" "Transport" "" 50 "Card";
            OpDelete 1;
            OpAdd "2024-02-01" "Food" "" 25 "Cash"]).
  reflexivity.
Defined.

Lemma run_seq_creates_witness :
  exists t : table,
    run [OpAdd "2024-01-05" "Food" "" 100 "UPI";
         OpAdd "2024-01-20" "Transport" "" 50 "Card";
         OpDelete 2;
         OpUpdate 1 "2024-01-06" "Rent" "flat" 900 "Card"] empty_table = Ok t
    /\ seq t = creates [OpAdd "2024-01-05" "Food" "" 100 "UPI";
                        OpAdd "2024-01-20" "Transport" "" 50 "Card";
                        OpDelete 2;
                        OpUpdate 1 "2024-01-06" "Rent" "flat" 900 "Card"].
Proof.
  eexists. split; [reflexivity|].
  apply (run_seq_creates
           [OpAdd "2024-01-05" "Food" "" 100 "UPI";
            OpAdd "2024-01-20" "Transport" "" 50 "Card";
            OpDelete 2;
            OpUpdate 1 "2024-01-06" "Rent" "flat" 900 "Card"]).
  reflexivity.
Defined.

Lemma add_expense_listing_filtered_witness :
  add_expense "2024-02-01" "Food" "" 25 "Cash"
    (Table [Expense 1 "2024-01-05" "Food" "" 100 "UPI"] 1)
  = Ok (Table [Expense 1 "2024-01-05" "Food" "" 100 "UPI";
               Expense 2 "2024-02-01" "Food" "" 25 "Cash"] 2)
  /\ ~ selected iso_sqlite_date
         (where_clause (Some "2024-01-01") (Some "2024-01-31") None)
         (Expense 2 "2024-02-01" "Food" "" 25 "Cash")
  /\ Permutation
       (fetch_expenses iso_sqlite_date (Some "2024-01-01") (Some "2024-01-31") None
          (Table [Expense 1 "2024-01-05" "Food" "" 100 "UPI";
                  Expense 2 "2024-02-01" "Food" "" 25 "Cash"] 2))
       (fetch_expenses iso_sqlite_date (Some "2024-01-01") (Some "2024-01-31") None
          (Table [Expense 1 "2024-01-05" "Food" "" 100 "UPI"] 1)).
Proof.
  assert (~ selected iso_sqlite_date
            (where_clause (Some "2024-01-01") (Some "2024-01-31") None)
            (@Expense Z 2 "2024-02-01" "Food" "" 25 "Cash")) as Hnot.
  { intros Hsel. vm_compute in Hsel. discriminate Hsel. }
  split; [reflexivity|]. split; [exact Hnot|].
  exact (proj2 (add_expense_listing_filtered iso_sqlite_date
                  "2024-02-01" "Food" "" 25 "Cash"
                  (Table [Expense 1 "2024-01-05" "Food" "" 100 "UPI"] 1) _
                  (Some "2024-01-01") (Some "2024-01-31") None eq_refl) Hnot).
Defined.

Lemma update_expense_compose_witness :
  1 <> 2
  /\ update_expense 1 "2024-01-06" "Rent" "flat" 900 "Card"
       (update_expense 2 "2024-01-21" "Transport" "bus" 60 "Card"
          (Table [Expense 1 "2024-01-05" "Food" "" 100 "UPI";
                  Expense 2 "2024-01-20" "Transport" "" 50 "Card"] 2))
     = update_expense 2 "2024-01-21" "Transport" "bus" 60 "Card"
         (update_expense 1 "2024-01-06" "Rent" "flat" 900 "Card"
            (Table [Expense 1 "2024-01-05" "Food" "" 100 "UPI";
                    Expense 2 "2024-01-20" "Transport" "" 50 "Card"] 2)).
Proof.
  split; [lia|].
  apply (proj2 (update_expense_compose 1 2
                  "2024-01-06" "Rent" "flat" 900 "Card"
                  "2024-01-21" "Transport" "bus" 60 "Card" _)).
  lia.
Defined.

Lemma update_delete_compose_witness :
  1 <> 2
  /\ delete_expense 1
       (update_expense 2 "2024-01-21" "Transport" "bus" 60 "Card"
          (Table [Expense 1 "2024-01-05" "Food" "" 100 "UPI";
                  Expense 2 "2024-01-20" "Transport" "" 50 "Card"] 2))
     = update_expense 2 "2024-01-21" "Transport" "bus" 60 "Card"
         (delete_expense 1
            (Table [Expense 1 "2024-01-05" "Food" "" 100 "UPI";
                    Expense 2 "2024-01-20" "Transport" "" 50 "Card"] 2)).
Proof.
  split; [lia|].
  apply (proj2 (proj2 (update_delete_compose 1 2
                         "2024-01-21" "Transport" "bus" 60 "Card" _))).
  lia.
Defined.

Lemma add_expense_full_persists_witness :
  MAX_ROWID <= seq (Table [Expense 9223372036854775807 "2024-01-05" "Food" "" 100 "UPI"]
                      9223372036854775807)
  /\ run [OpDelete 9223372036854775807]
       (Table [Expense 9223372036854775807 "2024-01-05" "Food" "" 100 "UPI"]
          9223372036854775807)
     = Ok (Table [] 9223372036854775807)
  /\ add_expense "2024-02-01" "Food" "" 25 "Cash" (Table [] 9223372036854775807)
     = Raise OperationalError.
Proof.
  split; [vm_compute; discriminate|]. split; [reflexivity|].
  apply (add_expense_full_persists [OpDelete 9223372036854775807]
           (Table [Expense 9223372036854775807 "2024-01-05" "Food" "" 100 "UPI"]
              9223372036854775807));
    [vm_compute; discriminate | reflexivity].
Defined.

Lemma fetch_expenses_filter_of_all_witness :
  exists t : table,
    run [OpAdd "2024-01-05" "Food" "" 100 "UPI";
         OpAdd "2024-01-20" "Transport" "" 50 "Card";
         OpAdd "2024-02-01" "Food" "" 25 "Cash"] empty_table = Ok t
    /\ fetch_expenses iso_sqlite_date (Some "2024-01-01") (Some "2024-01-31")
         (Some "Food") t
       = filter (selected iso_sqlite_date
                   (where_clause (Some "2024-01-01") (Some "2024-01-31")
                      (Some "Food")))
           (fetch_expenses iso_sqlite_date None None None t).
Proof.
  eexists. split; [reflexivity|].
  apply (fetch_expenses_filter_of_all iso_sqlite_date
           [OpAdd "2024-01-05" "Food" "" 100 "UPI";
            OpAdd "2024-01-20" "Transport" "" 50 "Card";
            OpAdd "2024-02-01" "Food" "" 25 "Cash"]).
  reflexivity.
Defined.

Lemma delete_expense_listing_witness :
  exists t : table,
    run [OpAdd "2024-01-05" "Food" "" 100 "UPI";
         OpAdd "2024-01-20" "Transport" "" 50 "Card";
         OpAdd "2024-02-01" "Food" "" 25 "Cash"] empty_table = Ok t
    /\ fetch_expenses iso_sqlite_date None None (Some "All") (delete_expense 2 t)
       = filter (fun r => id r <> 2)
           (fetch_expenses iso_sqlite_date None None (Some "All") t).
Proof.
  eexists. split; [reflexivity|].
  apply (delete_expense_listing iso_sqlite_date
           [OpAdd "2024-01-05" "Food" "" 100 "UPI";
            OpAdd "2024-01-20" "Transport" "" 50 "Card";
            OpAdd "2024-02-01" "Food" "" 25 "Cash"]).
  reflexivity.
Defined.

Lemma fetch_expenses_strict_witness :
  exists t : table,
    run [OpAdd "2024-01-05" "Food" "" 100 "UPI";
         OpAdd "2024-01-05" "Transport" "" 50 "Card"] empty_table = Ok t
    /\ NoDup (id <$> fetch_expenses iso_sqlite_date None None None t)
    /\ StronglySorted
         (fun x y => date_desc_id_desc iso_sqlite_date x y /\ id x <> id y)
         (fetch_expenses iso_sqlite_date None None None t).
Proof.
  eexists. split; [reflexivity|].
  apply (fetch_expenses_strict iso_sqlite_date
           [OpAdd "2024-01-05" "Food" "" 100 "UPI";
            OpAdd "2024-01-05" "Transport" "" 50 "Card"]).
  reflexivity.
Defined.

Lemma fetch_expenses_empty_range_witness :
  "someday" <> "" /\ iso_sqlite_date "someday" = None
  /\ fetch_expenses iso_sqlite_date (Some "someday") None None
       (Table [Expense 1 "2024-01-05" "Food" "" 100 "UPI"] 1) = []
  /\ "2024-02-01" <> "" /\ "2024-01-01" <> ""
  /\ iso_sqlite_date "2024-02-01" = Some "2024-02-01"
  /\ iso_sqlite_date "2024-01-01" = Some "2024-01-01"
  /\ ~ String.le "2024-02-01" "2024-01-01"
  /\ fetch_expenses iso_sqlite_date (Some "2024-02-01") (Some "2024-01-01") None
       (Table [Expense 1 "2024-01-05" "Food" "" 100 "UPI"] 1) = [].
Proof.
  assert (~ String.le "2024-02-01" "2024-01-01") as Hnle
    by (intros Hle; vm_compute in Hle; exact Hle).
  split; [discriminate|]. split; [reflexivity|]. split.
  { apply (proj1 (fetch_expenses_empty_range iso_sqlite_date
                    "someday" "" "" "" None None None _));
      [discriminate | reflexivity]. }
  split; [discriminate|]. split; [discriminate|].
  split; [reflexivity|]. split; [reflexivity|]. split; [exact Hnle|].
  apply (proj2 (fetch_expenses_empty_range iso_sqlite_date
                  "2024-02-01" "2024-01-01" "2024-02-01" "2024-01-01"
                  None None None _));
    [discriminate | discriminate | reflexivity | reflexivity | exact Hnle].
Defined.

Lemma fetch_expenses_null_date_witness :
  In (Expense 2 "someday" "Food" "" 7 "UPI")
     (rows (Table [Expense 1 "2024-01-05" "Food" "" 100 "UPI";
                   Expense 2 "someday" "Food" "" 7 "UPI"] 2))
  /\ date_portion iso_sqlite_date (Expense 2 "someday" "Food" "" 7 "UPI") = None
  /\ In (Expense 2 "someday" "Food" "" 7 "UPI")
       (fetch_expenses iso_sqlite_date None None None
          (Table [Expense 1 "2024-01-05" "Food" "" 100 "UPI";
                  Expense 2 "someday" "Food" "" 7 "UPI"] 2))
  /\ ~ In (Expense 2 "someday" "Food" "" 7 "UPI")
         (fetch_expenses iso_sqlite_date (Some "2024-01-01") None None
            (Table [Expense 1 "2024-01-05" "Food" "" 100 "UPI";
                    Expense 2 "someday" "Food" "" 7 "UPI"] 2)).
Proof.
  pose proof (fetch_expenses_null_date iso_sqlite_date
                (Expense 2 "someday" "Food" "" 7 "UPI")
                (Table [Expense 1 "2024-01-05" "Food" "" 100 "UPI";
                        Expense 2 "someday" "Food" "" 7 "UPI"] 2)
                (or_intror (or_introl eq_refl)) eq_refl) as (Hall & Hlo & _).
  split; [right; left; reflexivity|]. split; [reflexivity|].
  split; [exact Hall|]. apply Hlo. discriminate.
Defined.



Lemma add_expense_form_accepted_witness :
  (25 <=? 0) = false
  /\ top_rowid (Table [Expense 1 "2024-01-05" "Food" "" 100 "UPI"] 1) < MAX_ROWID
  /\ exists t',
       add_expense_form 0 Z.leb ascii_strip true (mkDate 2024 2 9) "Food" " tea "
         25 "UPI" (Table [Expense 1 "2024-01-05" "Food" "" 100 "UPI"] 1)
       = Ok (t', [CallAddExpense (isoformat (mkDate 2024 2 9)) "Food"
                    (ascii_strip " tea ") 25 "UPI";
                  StSuccess "Expense added!"])
       /\ Permutation (fetch_expenses iso_sqlite_date None None None t')
            (Expense (top_rowid (Table [Expense 1 "2024-01-05" "Food" "" 100 "UPI"] 1) + 1)
               (isoformat (mkDate 2024 2 9)) "Food" (ascii_strip " tea ") 25 "UPI"
             :: fetch_expenses iso_sqlite_date None None None
                  (Table [Expense 1 "2024-01-05" "Food" "" 100 "UPI"] 1)).
Proof.
  split; [reflexivity|]. split; [vm_compute; reflexivity|].
  apply (proj1 (add_expense_form_accepted 0 Z.leb iso_sqlite_date ascii_strip
                  (mkDate 2024 2 9) "Food" " tea " 25 "UPI" _));
    [reflexivity | vm_compute; reflexivity].
Defined.

Lemma filter_bar_spec_witness :
  iso_sqlite_date (isoformat (mkDate 2024 1 1)) = Some "2024-01-01"
  /\ iso_sqlite_date (isoformat (mkDate 2024 1 31)) = Some "2024-01-31"
  /\ Permutation
       (filter_bar iso_sqlite_date (Some (mkDate 2024 1 1)) (Some (mkDate 2024 1 31))
          "Food"
          (Table [Expense 1 "2024-01-05" "Food" "" 100 "UPI";
                  Expense 2 "2024-02-01" "Food" "" 25 "Cash"] 2))
       (filter (fun r => on_or_after iso_sqlite_date "2024-01-01" r
                         /\ on_or_before iso_sqlite_date "2024-01-31" r
                         /\ category_passes (Some "Food") r)
          (rows (Table [Expense 1 "2024-01-05" "Food" "" 100 "UPI";
                        Expense 2 "2024-02-01" "Food" "" 25 "Cash"] 2))).
Proof.
  split; [vm_compute; reflexivity|]. split; [vm_compute; reflexivity|].
  apply (proj2 (filter_bar_spec iso_sqlite_date (mkDate 2024 1 1) (mkDate 2024 1 31)
                  "2024-01-01" "2024-01-31" "Food" _));
    vm_compute; reflexivity.
Defined.

Lemma edit_defaults_spec_witness :
  edit_defaults 0 Z.leb iso_to_datetime
    (Expense 1 "2024-01-05" "Groceries" "milk" 100 "UPI")
  = Some (EditValues (mkDate 2024 1 5) "Food" 100 "milk" "UPI")
  /\ ~ In "Groceries" CATEGORIES
  /\ new_category (EditValues (mkDate 2024 1 5) "Food" 100 "milk" "UPI") = "Food"
  /\ In "UPI" PAYMENT_METHODS
  /\ new_method (EditValues (mkDate 2024 1 5) "Food" 100 "milk" "UPI") = "UPI".
Proof.
  assert (~ In "Groceries" CATEGORIES) as Hnin.
  { intros Hin. repeat (destruct Hin as [Hin|Hin]; [discriminate Hin|]).
    exact Hin. }
  assert (In "UPI" PAYMENT_METHODS) as Hin by (right; left; reflexivity).
  destruct (edit_defaults_spec 0 Z.leb iso_to_datetime
              (Expense 1 "2024-01-05" "Groceries" "milk" 100 "UPI")
              (EditValues (mkDate 2024 1 5) "Food" 100 "milk" "UPI"))
    as (_ & _ & _ & Hc & Hp & _); [vm_compute; reflexivity|].
  split; [vm_compute; reflexivity|]. split; [exact Hnin|].
  split; [exact (Hc Hnin)|]. split; [exact Hin|]. exact (Hp Hin).
Defined.

Lemma select_row_offered_witness :
  In 2 (id <$> [Expense 3 "2024-02-01" "Food" "" 25 "Cash";
                Expense 2 "2024-01-20" "Transport" "" 50 "Card"])
  /\ exists row,
       select_row [Expense 3 "2024-02-01" "Food" "" 25 "Cash";
                   Expense 2 "2024-01-20" "Transport" "" 50 "Card"] 2 = Some row
       /\ id row = 2
       /\ In row [Expense 3 "2024-02-01" "Food" "" 25 "Cash";
                  Expense 2 "2024-01-20" "Transport" "" 50 "Card"].
Proof.
  split; [right; left; reflexivity|].
  apply select_row_offered. right; left; reflexivity.
Defined.

Lemma edit_update_unchanged_witness :
  exists t : table,
    run [OpAdd "2024-01-05" "Food" "milk" 100 "UPI";
         OpAdd "2024-01-20" "Transport" "" 50 "Card"] empty_table = Ok t
    /\ select_row (fetch_expenses iso_sqlite_date None None (Some "All") t) 1
       = Some (Expense 1 "2024-01-05" "Food" "milk" 100 "UPI")
    /\ edit_defaults 0 Z.leb iso_to_datetime
         (Expense 1 "2024-01-05" "Food" "milk" 100 "UPI")
       = Some (EditValues (mkDate 2024 1 5) "Food" 100 "milk" "UPI")
    /\ In "Food" CATEGORIES /\ In "UPI" PAYMENT_METHODS
    /\ isoformat (mkDate 2024 1 5) = "2024-01-05"
    /\ edit_update 1 (EditValues (mkDate 2024 1 5) "Food" 100 "milk" "UPI") t = t.
Proof.
  eexists. split; [reflexivity|]. split; [vm_compute; reflexivity|].
  split; [vm_compute; reflexivity|]. split; [left; reflexivity|].
  split; [right; left; reflexivity|]. split; [vm_compute; reflexivity|].
  apply (edit_update_unchanged 0 Z.leb iso_sqlite_date iso_to_datetime
           [OpAdd "2024-01-05" "Food" "milk" 100 "UPI";
            OpAdd "2024-01-20" "Transport" "" 50 "Card"] _
           None None (Some "All") 1
           (Expense 1 "2024-01-05" "Food" "milk" 100 "UPI"));
    [reflexivity | vm_compute; reflexivity | vm_compute; reflexivity
    | left; reflexivity | right; left; reflexivity | vm_compute; reflexivity].
Defined.

Lemma edit_update_fetch_witness :
  In (Expense 1 "2024-01-05" "Food" "" 100 "UPI")
     (rows (Table [Expense 1 "2024-01-05" "Food" "" 100 "UPI"] 1))
  /\ In (Expense 1 (isoformat (mkDate 2024 1 5)) "Food" "" 0 "UPI")
       (fetch_expenses iso_sqlite_date None None None
          (edit_update 1 (EditValues (mkDate 2024 1 5) "Food" 0 "" "UPI")
             (Table [Expense 1 "2024-01-05" "Food" "" 100 "UPI"] 1))).
Proof.
  split; [left; reflexivity|].
  exact (edit_update_fetch iso_sqlite_date
           (Table [Expense 1 "2024-01-05" "Food" "" 100 "UPI"] 1)
           (Expense 1 "2024-01-05" "Food" "" 100 "UPI")
           (EditValues (mkDate 2024 1 5) "Food" 0 "" "UPI")
           (or_introl eq_refl)).
Defined.

Lemma isoformat_le_witness :
  valid_date (mkDate 2024 2 29) /\ valid_date (mkDate 2024 11 3)
  /\ (String.le (isoformat (mkDate 2024 2 29)) (isoformat (mkDate 2024 11 3))
      <-> date_le (mkDate 2024 2 29) (mkDate 2024 11 3)).
Proof.
  assert (valid_date (mkDate 2024 2 29)) as H1
    by (unfold valid_date; vm_compute; intuition discriminate).
  assert (valid_date (mkDate 2024 11 3)) as H2
    by (unfold valid_date; vm_compute; intuition discriminate).
  split; [exact H1|]. split; [exact H2|].
  exact (proj1 (isoformat_le _ _ H1 H2)).
Defined.

Lemma filter_bar_calendar_witness :
  (forall d, valid_date d -> iso_sqlite_date (isoformat d) = Some (isoformat d))
  /\ valid_date (mkDate 2024 1 1) /\ valid_date (mkDate 2024 1 31)
  /\ valid_date (mkDate 2024 1 5)
  /\ (In (Expense 1 "2024-01-05" "Food" "" 100 "UPI")
        (filter_bar iso_sqlite_date (Some (mkDate 2024 1 1))
           (Some (mkDate 2024 1 31)) "All"
           (Table [Expense 1 "2024-01-05" "Food" "" 100 "UPI"] 1))
      <-> In (Expense 1 "2024-01-05" "Food" "" 100 "UPI")
            (rows (Table [Expense 1 "2024-01-05" "Food" "" 100 "UPI"] 1))
          /\ date_le (mkDate 2024 1 1) (mkDate 2024 1 5)
          /\ date_le (mkDate 2024 1 5) (mkDate 2024 1 31)
          /\ category_passes (Some "All")
               (Expense 1 "2024-01-05" "Food" "" 100 "UPI")).
Proof.
  assert (valid_date (mkDate 2024 1 1)) as H1
    by (unfold valid_date; vm_compute; intuition discriminate).
  assert (valid_date (mkDate 2024 1 31)) as H2
    by (unfold valid_date; vm_compute; intuition discriminate).
  assert (valid_date (mkDate 2024 1 5)) as H3
    by (unfold valid_date; vm_compute; intuition discriminate).
  split; [exact iso_sqlite_date_isoformat|].
  split; [exact H1|]. split; [exact H2|]. split; [exact H3|].
  apply (filter_bar_calendar iso_sqlite_date (mkDate 2024 1 1) (mkDate 2024 1 31)
           (mkDate 2024 1 5) "All");
    [exact iso_sqlite_date_isoformat | exact H1 | exact H2 | exact H3
    | vm_compute; reflexivity].
Defined.
